(** * awssecret: retrieval and decoding of AWS Secrets Manager secrets

    A shallow embedding of the Go package [awssecret]:

    - [GetStringSecret]        the raw fetcher,
    - [GetCredentialSecret]    the JSON decoder for [Credential],
    - [GetAPICredentialSecret] the JSON decoder for [APICredential],
    - [GetPostgresDSNSecret]   the DSN formatter.

    Go strings are byte sequences: they are modelled by [string], whose
    characters are the 256 bytes.  A Go result pair (value, err) is a pair
    whose second component is an [option error], [None] being the nil error.
    The calls that leave the package (session construction, the
    GetSecretValue request, json.Unmarshal) are recorded, in order, in the
    list of events a computation produces; records allocated with the
    address-of operator live in a heap indexed by locations.

    The source comes in two revisions: the one with the four functions is
    embedded in Section [awssecret]; awssecret.go, which has the fetcher
    and the DSN formatter only, in Module [rev0]. *)

From Stdlib Require Import ZArith Ascii String List Bool.
From stdpp Require Import gmap strings list.

Open Scope string_scope.
Open Scope list_scope.
Open Scope Z_scope.

(** ** Bytes *)

Definition byte_val (c : ascii) : N := N_of_ascii c.

Definition in_range (lo hi : N) (c : ascii) : bool :=
  ((lo <=? byte_val c) && (byte_val c <=? hi))%N.

(** The double quote and the backslash, by their codes. *)
Definition dquote : ascii := "034"%char.
Definition backslash : ascii := "092"%char.

(** Payloads are written with an apostrophe standing for each double quote:
    [js] puts the double quotes back. *)
Fixpoint js (s : string) : string :=
  match s with
  | EmptyString => EmptyString
  | String c r => String (if Ascii.eqb c "'"%char then dquote else c) (js r)
  end.

(** ** The part of Go's [strings] package the code uses *)

Module strings.

Fixpoint HasPrefix (s prefix : string) {struct prefix} : bool :=
  match prefix with
  | EmptyString => true
  | String p ps =>
      match s with
      | EmptyString => false
      | String c cs => Ascii.eqb c p && HasPrefix cs ps
      end
  end.

(** [Index s substr]: the index of the first instance of [substr] in [s],
    or -1 when there is none. *)
Fixpoint Index (s substr : string) : Z :=
  if HasPrefix s substr then 0
  else match s with
       | EmptyString => -1
       | String _ r => let i := Index r substr in
                       if i <? 0 then -1 else i + 1
       end.

End strings.

(** [contains s sub]: [sub] occurs in [s] as a contiguous substring. *)
Definition contains (s sub : string) : Prop :=
  exists a b : string, s = a +:+ sub +:+ b.

(** ** Errors *)

(** The error values that can flow through the package.  The stack trace
    that pkg/errors attaches is not modelled; an error built by
    [errors.Wrapf] keeps its cause and its message. *)
Inductive error : Type :=
| AwsError (code message : string)        (* a value implementing awserr.Error *)
| OtherError (message : string)           (* any other error of the SDK *)
| Fundamental (msg : string)              (* errors.New *)
| WithMessage (cause : error) (msg : string)   (* errors.Wrapf *)
| SyntaxError                             (* *json.SyntaxError *)
| UnmarshalTypeError (Value Field : string)    (* *json.UnmarshalTypeError *)
| InvalidUnmarshalError.                  (* *json.InvalidUnmarshalError *)

Module errors.

Definition New (msg : string) : option error := Some (Fundamental msg).

(** [Wrapf] returns nil when given nil. *)
Definition Wrapf (err : option error) (msg : string) : option error :=
  match err with
  | None => None
  | Some e => Some (WithMessage e msg)
  end.

End errors.

(** The type assertion [err.(awserr.Error)] and the method [Code]. *)
Definition as_awserr (e : error) : option string :=
  match e with
  | AwsError code _ => Some code
  | _ => None
  end.

(** ** The part of Go's [unicode/utf8] and [unicode/utf16] that
       [encoding/json] uses to decode string literals *)

Module utf8.

Definition RuneError : N := 65533%N.        (* U+FFFD *)

Definition byte_of (n : N) : ascii := ascii_of_N (n mod 256).

Definition cont (n : N) : ascii := byte_of (128 + n mod 64).

(** [EncodeRune r]: the UTF-8 encoding of [r]; a surrogate or a value
    above U+10FFFF is encoded as U+FFFD. *)
Definition EncodeRune (r : N) : string :=
  (if r <? 128 then String (byte_of r) EmptyString
   else if r <? 2048 then
     String (byte_of (192 + r / 64)) (String (cont r) EmptyString)
   else if (1114111 <? r) || ((55296 <=? r) && (r <=? 57343)) then
     String (byte_of 239) (String (byte_of 191) (String (byte_of 189) EmptyString))
   else if r <? 65536 then
     String (byte_of (224 + r / 4096))
       (String (cont (r / 64)) (String (cont r) EmptyString))
   else
     String (byte_of (240 + r / 262144))
       (String (cont (r / 4096))
          (String (cont (r / 64)) (String (cont r) EmptyString))))%N.

(** For a leading byte: the size of the sequence it starts and the range
    its second byte must lie in.  [None]: not a leading byte of a
    multi-byte sequence. *)
Definition first (p0 : ascii) : option (nat * N * N) :=
  let b := byte_val p0 in
  (if (194 <=? b) && (b <=? 223) then Some (2%nat, 128, 191)
   else if b =? 224 then Some (3%nat, 160, 191)
   else if b =? 237 then Some (3%nat, 128, 159)
   else if (225 <=? b) && (b <=? 239) then Some (3%nat, 128, 191)
   else if b =? 240 then Some (4%nat, 144, 191)
   else if (241 <=? b) && (b <=? 243) then Some (4%nat, 128, 191)
   else if b =? 244 then Some (4%nat, 128, 143)
   else None)%N.

Definition is_cont (c : ascii) : bool := in_range 128 191 c.

(** [DecodeRune p]: the first rune of [p] and its width in bytes; an
    invalid or truncated encoding gives [(RuneError, 1)], the empty
    input [(RuneError, 0)]. *)
Definition DecodeRune (p : string) : N * nat :=
  match p with
  | EmptyString => (RuneError, 0%nat)
  | String p0 r =>
      if (byte_val p0 <? 128)%N then (byte_val p0, 1%nat)
      else
        match first p0 with
        | None => (RuneError, 1%nat)
        | Some (sz, lo, hi) =>
            match r with
            | EmptyString => (RuneError, 1%nat)
            | String b1 r1 =>
                if negb (in_range lo hi b1) then (RuneError, 1%nat)
                else if (sz <=? 2)%nat then
                  (((byte_val p0 mod 32) * 64 + byte_val b1 mod 64)%N, 2%nat)
                else
                  match r1 with
                  | EmptyString => (RuneError, 1%nat)
                  | String b2 r2 =>
                      if negb (is_cont b2) then (RuneError, 1%nat)
                      else if (sz <=? 3)%nat then
                        (((byte_val p0 mod 16) * 4096
                          + (byte_val b1 mod 64) * 64
                          + byte_val b2 mod 64)%N, 3%nat)
                      else
                        match r2 with
                        | EmptyString => (RuneError, 1%nat)
                        | String b3 _ =>
                            if negb (is_cont b3) then (RuneError, 1%nat)
                            else
                              (((byte_val p0 mod 8) * 262144
                                + (byte_val b1 mod 64) * 4096
                                + (byte_val b2 mod 64) * 64
                                + byte_val b3 mod 64)%N, 4%nat)
                        end
                  end
            end
        end
  end.

End utf8.

Module utf16.

Definition IsSurrogate (r : N) : bool := ((55296 <=? r) && (r <? 57344))%N.

(** [DecodeRune r1 r2]: the code point of a surrogate pair, U+FFFD when
    the pair is not valid. *)
Definition DecodeRune (r1 r2 : N) : N :=
  (if (55296 <=? r1) && (r1 <? 56320) && (56320 <=? r2) && (r2 <? 57344)
   then (r1 - 55296) * 1024 + (r2 - 56320) + 65536
   else utf8.RuneError)%N.

End utf16.

(** ** The part of Go's [strconv] that [encoding/json] uses for integers *)

Module strconv.

Definition minInt64 : Z := - 2 ^ 63.
Definition maxInt64 : Z := 2 ^ 63 - 1.

Fixpoint digits (acc : Z) (s : string) : option Z :=
  match s with
  | EmptyString => Some acc
  | String c r =>
      if in_range 48 57 c
      then digits (10 * acc + (Z.of_N (byte_val c) - 48)) r
      else None
  end.

(** [ParseInt s] is [strconv.ParseInt(s, 10, 64)]: an optional sign and a
    non-empty run of decimal digits, whose value fits 64 bits. *)
Definition ParseInt (s : string) : option Z :=
  match s with
  | EmptyString => None
  | String c r =>
      let neg := Ascii.eqb c "-" in
      let ds := if Ascii.eqb c "-" || Ascii.eqb c "+" then r else s in
      match ds with
      | EmptyString => None
      | String _ _ =>
          match digits 0 ds with
          | Some n =>
              let v := if neg then - n else n in
              if (minInt64 <=? v) && (v <=? maxInt64) then Some v else None
          | None => None
          end
      end
  end.

End strconv.

(** ** Go's [encoding/json], as far as decoding into a flat struct goes

    [encoding/json] is the standard library of Go, not code of the package;
    it is modelled from its documented behaviour.  [json.Unmarshal] first
    checks the whole input against the JSON grammar and only then stores
    values.  The grammar check is modelled by a scanner of the bytes
    ([lex]) followed by a pushdown automaton over the tokens ([parse]);
    both are total functions, recursive on their input.  What is stored
    follows the decoder: keys select fields by name, exactly or up to case;
    members are stored in order, so the last of two members naming a field
    counts; null stores nothing; a value of the wrong kind is reported as an
    UnmarshalTypeError, the first such error is kept and decoding goes on.

    Not modelled: the messages and offsets of the errors.  [int] is taken
    to be 64 bits wide, and the scanner refuses nesting deeper than 10000
    (as it does since Go 1.15). *)

Module json.

#[local] Set Warnings "-register-all".

Inductive value : Type :=
| Null
| Bool (b : bool)
| Number (lit : string)          (* the literal as written *)
| Str (s : string)               (* the unquoted string *)
| Array (elems : list value)
| Object (members : list (string * value)).

Definition isSpace (c : ascii) : bool :=
  Ascii.eqb c " " || Ascii.eqb c "009" || Ascii.eqb c "013" || Ascii.eqb c "010".

Definition is_digit (c : ascii) : bool := in_range 48 57 c.

Definition hex_val (c : ascii) : option N :=
  (if in_range 48 57 c then Some (byte_val c - 48)
   else if in_range 97 102 c then Some (byte_val c - 87)
   else if in_range 65 70 c then Some (byte_val c - 55)
   else None)%N.

(** [getu4 s]: the value of the escape sequence [\uXXXX] at the start of
    [s], [None] when [s] does not start with one. *)
Definition getu4 (s : string) : option N :=
  match s with
  | String b0 (String b1 (String a (String b (String c (String d _))))) =>
      if Ascii.eqb b0 backslash && Ascii.eqb b1 "u" then
        match hex_val a, hex_val b, hex_val c, hex_val d with
        | Some x, Some y, Some z, Some w => Some (x * 4096 + y * 256 + z * 16 + w)%N
        | _, _, _, _ => None
        end
      else None
  | _ => None
  end.

Definition simple_escape (e : ascii) : option ascii :=
  if Ascii.eqb e dquote || Ascii.eqb e backslash || Ascii.eqb e "/"
     || Ascii.eqb e "'" then Some e
  else if Ascii.eqb e "b" then Some "008"%char
  else if Ascii.eqb e "f" then Some "012"%char
  else if Ascii.eqb e "n" then Some "010"%char
  else if Ascii.eqb e "r" then Some "013"%char
  else if Ascii.eqb e "t" then Some "009"%char
  else None.

(** [unquote s]: the Go string denoted by the body [s] of a string
    literal (the text between the quotes).  Escapes are replaced, a
    surrogate half that is not part of a valid pair and every byte that
    does not start a valid UTF-8 sequence become U+FFFD. *)
Fixpoint unquote (s : string) : option string :=
  match s with
  | EmptyString => Some EmptyString
  | String c r =>
      if Ascii.eqb c backslash then
        match r with
        | EmptyString => None
        | String e r1 =>
            match simple_escape e with
            | Some b => String b <$> unquote r1
            | None =>
                if Ascii.eqb e "u" then
                  match getu4 s, r1 with
                  | Some rr, String _ (String _ (String _ (String _ r6))) =>
                      if utf16.IsSurrogate rr then
                        match getu4 r6, r6 with
                        | Some rr1,
                          String _ (String _ (String _ (String _ (String _ (String _ r12))))) =>
                            if (utf16.DecodeRune rr rr1 =? utf8.RuneError)%N
                            then String.app (utf8.EncodeRune utf8.RuneError) <$> unquote r6
                            else String.app (utf8.EncodeRune (utf16.DecodeRune rr rr1))
                                   <$> unquote r12
                        | _, _ =>
                            String.app (utf8.EncodeRune utf8.RuneError) <$> unquote r6
                        end
                      else String.app (utf8.EncodeRune rr) <$> unquote r6
                  | _, _ => None
                  end
                else None
            end
        end
      else if Ascii.eqb c dquote || (byte_val c <? 32)%N then None
      else if (byte_val c <? 128)%N then String c <$> unquote r
      else
        let '(rr, size) := utf8.DecodeRune s in
        match size, r with
        | 2%nat, String _ r2 => String.app (utf8.EncodeRune rr) <$> unquote r2
        | 3%nat, String _ (String _ r3) =>
            String.app (utf8.EncodeRune rr) <$> unquote r3
        | 4%nat, String _ (String _ (String _ r4)) =>
            String.app (utf8.EncodeRune rr) <$> unquote r4
        | _, _ => String.app (utf8.EncodeRune rr) <$> unquote r
        end
  end.


(** *** The scanner *)

Inductive token : Type :=
| TLBrace | TRBrace | TLBracket | TRBracket | TColon | TComma
| TString (s : string)
| TNumber (lit : string)
| TTrue | TFalse | TNull.

(** The states of the scanner inside a number, named after the state
    functions of Go's scanner. *)
Inductive num_state : Type :=
| stateNeg | state0 | state1 | stateDot | stateDot0
| stateE | stateESign | stateE0.

(** [num_step st c]: the state after reading [c] inside a number;
    [None] when [c] cannot continue the number. *)
Definition num_step (st : num_state) (c : ascii) : option num_state :=
  match st with
  | stateNeg =>
      if Ascii.eqb c "0" then Some state0
      else if in_range 49 57 c then Some state1 else None
  | state1 =>
      if is_digit c then Some state1
      else if Ascii.eqb c "." then Some stateDot
      else if Ascii.eqb c "e" || Ascii.eqb c "E" then Some stateE
      else None
  | state0 =>
      if Ascii.eqb c "." then Some stateDot
      else if Ascii.eqb c "e" || Ascii.eqb c "E" then Some stateE
      else None
  | stateDot => if is_digit c then Some stateDot0 else None
  | stateDot0 =>
      if is_digit c then Some stateDot0
      else if Ascii.eqb c "e" || Ascii.eqb c "E" then Some stateE
      else None
  | stateE =>
      if Ascii.eqb c "+" || Ascii.eqb c "-" then Some stateESign
      else if is_digit c then Some stateE0 else None
  | stateESign => if is_digit c then Some stateE0 else None
  | stateE0 => if is_digit c then Some stateE0 else None
  end.

(** The states in which a number may end. *)
Definition num_final (st : num_state) : bool :=
  match st with
  | state0 | state1 | stateDot0 | stateE0 => true
  | _ => false
  end.

Inductive lex_state : Type :=
| LexStart                                  (* between two tokens *)
| LexString (raw : list ascii)              (* in a string; [raw] reversed *)
| LexStringEsc (raw : list ascii)           (* after a backslash *)
| LexStringEscU (n : nat) (raw : list ascii)  (* [n] hex digits to come *)
| LexNumber (st : num_state) (lit : list ascii)
| LexLiteral (rest : string) (t : token).   (* the rest of true, false, null *)

(** The scanner at the start of a token: the token [c] is, or the state
    it opens. *)
Definition lex_begin (c : ascii) : option (lex_state * list token) :=
  if isSpace c then Some (LexStart, [])
  else if Ascii.eqb c "{" then Some (LexStart, [TLBrace])
  else if Ascii.eqb c "}" then Some (LexStart, [TRBrace])
  else if Ascii.eqb c "[" then Some (LexStart, [TLBracket])
  else if Ascii.eqb c "]" then Some (LexStart, [TRBracket])
  else if Ascii.eqb c ":" then Some (LexStart, [TColon])
  else if Ascii.eqb c "," then Some (LexStart, [TComma])
  else if Ascii.eqb c dquote then Some (LexString [], [])
  else if Ascii.eqb c "-" then Some (LexNumber stateNeg [c], [])
  else if Ascii.eqb c "0" then Some (LexNumber state0 [c], [])
  else if in_range 49 57 c then Some (LexNumber state1 [c], [])
  else if Ascii.eqb c "t" then Some (LexLiteral "rue" TTrue, [])
  else if Ascii.eqb c "f" then Some (LexLiteral "alse" TFalse, [])
  else if Ascii.eqb c "n" then Some (LexLiteral "ull" TNull, [])
  else None.

(** The escapes of one character the scanner accepts after a backslash. *)
Definition scan_escape (c : ascii) : bool :=
  Ascii.eqb c "b" || Ascii.eqb c "f" || Ascii.eqb c "n" || Ascii.eqb c "r"
  || Ascii.eqb c "t" || Ascii.eqb c backslash || Ascii.eqb c "/"
  || Ascii.eqb c dquote.

Definition text (rev_bytes : list ascii) : string :=
  string_of_list_ascii (rev rev_bytes).

(** One byte: the next state and the tokens completed by this byte. *)
Definition lex_step (st : lex_state) (c : ascii) : option (lex_state * list token) :=
  match st with
  | LexStart => lex_begin c
  | LexString raw =>
      if Ascii.eqb c dquote then
        match unquote (text raw) with
        | Some s => Some (LexStart, [TString s])
        | None => None
        end
      else if Ascii.eqb c backslash then Some (LexStringEsc (c :: raw), [])
      else if (byte_val c <? 32)%N then None
      else Some (LexString (c :: raw), [])
  | LexStringEsc raw =>
      if scan_escape c then Some (LexString (c :: raw), [])
      else if Ascii.eqb c "u" then Some (LexStringEscU 4 (c :: raw), [])
      else None
  | LexStringEscU n raw =>
      match hex_val c, n with
      | Some _, S O => Some (LexString (c :: raw), [])
      | Some _, S k => Some (LexStringEscU k (c :: raw), [])
      | _, _ => None
      end
  | LexNumber ns lit =>
      match num_step ns c with
      | Some ns' => Some (LexNumber ns' (c :: lit), [])
      | None =>
          if num_final ns then
            match lex_begin c with
            | Some (st', ts) => Some (st', TNumber (text lit) :: ts)
            | None => None
            end
          else None
      end
  | LexLiteral rest t =>
      match rest with
      | String x EmptyString => if Ascii.eqb c x then Some (LexStart, [t]) else None
      | String x rest' => if Ascii.eqb c x then Some (LexLiteral rest' t, []) else None
      | EmptyString => None
      end
  end.

Fixpoint lex_from (st : lex_state) (data : string) : option (list token) :=
  match data with
  | EmptyString =>
      match st with
      | LexStart => Some []
      | LexNumber ns lit => if num_final ns then Some [TNumber (text lit)] else None
      | _ => None
      end
  | String c r =>
      match lex_step st c with
      | Some (st', ts) => app ts <$> lex_from st' r
      | None => None
      end
  end.

Definition lex (data : string) : option (list token) := lex_from LexStart data.

(** *** The grammar *)

(** An open array or object: its elements or members so far, last first,
    and for an object the key whose value is awaited. *)
Inductive frame : Type :=
| InArray (rev_elems : list value)
| InObject (rev_members : list (string * value)) (key : string).

(** What the automaton expects next, named after the state functions of
    Go's scanner. *)
Inductive expect : Type :=
| BeginValue
| BeginValueOrEmpty            (* after an opening bracket *)
| BeginStringOrEmpty           (* after an opening brace *)
| BeginString                  (* after a comma in an object *)
| EndObjectKey                 (* after a key: a colon *)
| EndValue                     (* after a value inside an array or object *)
| EndTop (v : value).          (* after the top-level value *)

Definition maxNestingDepth : N := 10000.

(** A completed value goes to the innermost open container, or is the
    result when there is none. *)
Definition deliver (v : value) (stack : list frame) : expect * list frame :=
  match stack with
  | [] => (EndTop v, [])
  | InArray es :: st => (EndValue, InArray (v :: es) :: st)
  | InObject ms k :: st => (EndValue, InObject ((k, v) :: ms) k :: st)
  end.

Definition push (f : frame) (e : expect) (stack : list frame)
  : option (expect * list frame) :=
  if (N.of_nat (length (f :: stack)) <=? maxNestingDepth)%N
  then Some (e, f :: stack) else None.

Definition begin_value (t : token) (stack : list frame)
  : option (expect * list frame) :=
  match t with
  | TLBrace => push (InObject [] EmptyString) BeginStringOrEmpty stack
  | TLBracket => push (InArray []) BeginValueOrEmpty stack
  | TString s => Some (deliver (Str s) stack)
  | TNumber lit => Some (deliver (Number lit) stack)
  | TTrue => Some (deliver (Bool true) stack)
  | TFalse => Some (deliver (Bool false) stack)
  | TNull => Some (deliver Null stack)
  | _ => None
  end.

Definition parse_step (e : expect) (stack : list frame) (t : token)
  : option (expect * list frame) :=
  match e with
  | BeginValue => begin_value t stack
  | BeginValueOrEmpty =>
      match t, stack with
      | TRBracket, InArray es :: st => Some (deliver (Array (rev es)) st)
      | _, _ => begin_value t stack
      end
  | BeginStringOrEmpty =>
      match t, stack with
      | TRBrace, InObject ms _ :: st => Some (deliver (Object (rev ms)) st)
      | TString k, InObject ms _ :: st => Some (EndObjectKey, InObject ms k :: st)
      | _, _ => None
      end
  | BeginString =>
      match t, stack with
      | TString k, InObject ms _ :: st => Some (EndObjectKey, InObject ms k :: st)
      | _, _ => None
      end
  | EndObjectKey =>
      match t with
      | TColon => Some (BeginValue, stack)
      | _ => None
      end
  | EndValue =>
      match t, stack with
      | TComma, InArray _ :: _ => Some (BeginValue, stack)
      | TRBracket, InArray es :: st => Some (deliver (Array (rev es)) st)
      | TComma, InObject _ _ :: _ => Some (BeginString, stack)
      | TRBrace, InObject ms _ :: st => Some (deliver (Object (rev ms)) st)
      | _, _ => None
      end
  | EndTop _ => None
  end.

Fixpoint parse_from (e : expect) (stack : list frame) (ts : list token)
  : option value :=
  match ts with
  | [] => match e with EndTop v => Some v | _ => None end
  | t :: ts' =>
      match parse_step e stack t with
      | Some (e', stack') => parse_from e' stack' ts'
      | None => None
      end
  end.

(** [parse data]: the value [data] denotes, [None] when [data] is not a
    JSON text (the case in which Unmarshal returns a SyntaxError). *)
Definition parse (data : string) : option value :=
  lex data ≫= parse_from BeginValue [].

(** *** Storing a value into a struct *)

(** A struct is seen through its fields: the name its tag gives and how a
    value is assigned.  Only the kinds the package declares are modelled:
    [string], and [int] (64 bits wide). *)
Inductive setter (T : Type) : Type :=
| SetString (f : string -> T -> T)
| SetInt (f : Z -> T -> T).
Arguments SetString {T} f.
Arguments SetInt {T} f.

Record field (T : Type) : Type := Field { name : string; store : setter T }.
Arguments Field {T} name store.
Arguments name {T} f.
Arguments store {T} f.

Class Struct (T : Type) : Type := fields : list (field T).

Definition upper (c : ascii) : N :=
  (if in_range 97 122 c then byte_val c - 32 else byte_val c)%N.

(** [equalFold name key]: [key] equals the ASCII [name] under Unicode
    simple case folding.  Besides the two cases of each letter, the Kelvin
    sign (U+212A) folds to k and the long s (U+017F) to s. *)
Fixpoint equalFold (name key : string) : bool :=
  match name, key with
  | EmptyString, EmptyString => true
  | String n ns, String k ks =>
      if (byte_val k <? 128)%N then (upper n =? upper k)%N && equalFold ns ks
      else if (upper n =? 83)%N then
        (* the long s, bytes C5 BF *)
        match ks with
        | String k2 ks2 =>
            Ascii.eqb k "197" && Ascii.eqb k2 "191" && equalFold ns ks2
        | _ => false
        end
      else if (upper n =? 75)%N then
        (* the Kelvin sign, bytes E2 84 AA *)
        match ks with
        | String k2 (String k3 ks3) =>
            Ascii.eqb k "226" && Ascii.eqb k2 "132" && Ascii.eqb k3 "170"
            && equalFold ns ks3
        | _ => false
        end
      else false
  | _, _ => false
  end.

(** The field a key selects: the one with exactly that name, else the
    first whose name matches the key case-insensitively. *)
Definition find_field {T} (fs : list (field T)) (key : string) : option (field T) :=
  match List.find (fun f => String.eqb (name f) key) fs with
  | Some f => Some f
  | None => List.find (fun f => equalFold (name f) key) fs
  end.

Definition kind_name (v : value) : string :=
  match v with
  | Null => "null"
  | Bool _ => "bool"
  | Number _ => "number"
  | Str _ => "string"
  | Array _ => "array"
  | Object _ => "object"
  end.

(** Storing [v] into field [f] of [x].  A null leaves the field as it is;
    a value of the wrong kind leaves it as it is and reports an
    UnmarshalTypeError. *)
Definition store_value {T} (f : field T) (v : value) (x : T) : T * option error :=
  match v, store f with
  | Null, _ => (x, None)
  | Str s, SetString g => (g s x, None)
  | Number lit, SetInt g =>
      match strconv.ParseInt lit with
      | Some n => (g n x, None)
      | None => (x, Some (UnmarshalTypeError ("number " +:+ lit) (name f)))
      end
  | _, _ => (x, Some (UnmarshalTypeError (kind_name v) (name f)))
  end.

(** The decoder keeps the first error and goes on. *)
Definition saveError (saved err : option error) : option error :=
  match saved with
  | Some _ => saved
  | None => err
  end.

Fixpoint store_members {T} (fs : list (field T)) (ms : list (string * value))
    (x : T) (saved : option error) : T * option error :=
  match ms with
  | [] => (x, saved)
  | (k, v) :: ms' =>
      match find_field fs k with
      | Some f =>
          let '(x', err) := store_value f v x in
          store_members fs ms' x' (saveError saved err)
      | None => store_members fs ms' x saved
      end
  end.

Definition decode {T} `{Struct T} (v : value) (x : T) : T * option error :=
  match v with
  | Object ms => store_members fields ms x None
  | Null => (x, None)
  | _ => (x, Some (UnmarshalTypeError (kind_name v) EmptyString))
  end.

(** [unmarshal data x]: the struct [x] after [json.Unmarshal(data, &x)]
    and the error returned.  On a syntax error nothing is stored. *)
Definition unmarshal {T} `{Struct T} (data : string) (x : T) : T * option error :=
  match parse data with
  | None => (x, Some SyntaxError)
  | Some v => decode v x
  end.

End json.

(** ** The records of the package *)

(** [APICredential]: a credential for an API base URL, key and secret. *)
Record APICredential : Type := {
  APICredential_BaseURL : string;       (* json: baseURL *)
  APICredential_APIKey : string;        (* json: key *)
  APICredential_APISecret : string      (* json: secret *)
}.

(** [Credential]: a generic credential stored in Secrets Manager. *)
Record Credential : Type := {
  Credential_Host : string;             (* json: host *)
  Credential_Port : Z;                  (* json: port *)
  Credential_Key : string;              (* json: key *)
  Credential_Username : string;         (* json: username *)
  Credential_Password : string;         (* json: password *)
  Credential_DBName : string            (* json: dbname *)
}.

Record dsn : Type := {
  dsn_Engine : string;                  (* json: engine *)
  dsn_Host : string;                    (* json: host *)
  dsn_DBName : string;                  (* json: dbname *)
  dsn_Username : string;                (* json: username *)
  dsn_Password : string;                (* json: password *)
  dsn_Port : Z;                         (* json: port *)
  dsn_SearchPath : string;              (* json: search_path *)
  dsn_DBInstanceIdentifier : string     (* json: dbInstanceIdentifier *)
}.

(** The composite literals [APICredential{}], [Credential{}], [dsn{}]. *)
Definition APICredential_zero : APICredential :=
  {| APICredential_BaseURL := EmptyString; APICredential_APIKey := EmptyString;
     APICredential_APISecret := EmptyString |}.

Definition Credential_zero : Credential :=
  {| Credential_Host := EmptyString; Credential_Port := 0;
     Credential_Key := EmptyString; Credential_Username := EmptyString;
     Credential_Password := EmptyString; Credential_DBName := EmptyString |}.

Definition dsn_zero : dsn :=
  {| dsn_Engine := EmptyString; dsn_Host := EmptyString; dsn_DBName := EmptyString;
     dsn_Username := EmptyString; dsn_Password := EmptyString; dsn_Port := 0;
     dsn_SearchPath := EmptyString; dsn_DBInstanceIdentifier := EmptyString |}.

#[export] Instance APICredential_struct : json.Struct APICredential :=
  [ json.Field "baseURL" (json.SetString (fun s c =>
      {| APICredential_BaseURL := s;
         APICredential_APIKey := APICredential_APIKey c;
         APICredential_APISecret := APICredential_APISecret c |}));
    json.Field "key" (json.SetString (fun s c =>
      {| APICredential_BaseURL := APICredential_BaseURL c;
         APICredential_APIKey := s;
         APICredential_APISecret := APICredential_APISecret c |}));
    json.Field "secret" (json.SetString (fun s c =>
      {| APICredential_BaseURL := APICredential_BaseURL c;
         APICredential_APIKey := APICredential_APIKey c;
         APICredential_APISecret := s |})) ].

Definition set_Credential_Host (s : string) (c : Credential) : Credential :=
  {| Credential_Host := s; Credential_Port := Credential_Port c;
     Credential_Key := Credential_Key c; Credential_Username := Credential_Username c;
     Credential_Password := Credential_Password c; Credential_DBName := Credential_DBName c |}.
Definition set_Credential_Port (n : Z) (c : Credential) : Credential :=
  {| Credential_Host := Credential_Host c; Credential_Port := n;
     Credential_Key := Credential_Key c; Credential_Username := Credential_Username c;
     Credential_Password := Credential_Password c; Credential_DBName := Credential_DBName c |}.
Definition set_Credential_Key (s : string) (c : Credential) : Credential :=
  {| Credential_Host := Credential_Host c; Credential_Port := Credential_Port c;
     Credential_Key := s; Credential_Username := Credential_Username c;
     Credential_Password := Credential_Password c; Credential_DBName := Credential_DBName c |}.
Definition set_Credential_Username (s : string) (c : Credential) : Credential :=
  {| Credential_Host := Credential_Host c; Credential_Port := Credential_Port c;
     Credential_Key := Credential_Key c; Credential_Username := s;
     Credential_Password := Credential_Password c; Credential_DBName := Credential_DBName c |}.
Definition set_Credential_Password (s : string) (c : Credential) : Credential :=
  {| Credential_Host := Credential_Host c; Credential_Port := Credential_Port c;
     Credential_Key := Credential_Key c; Credential_Username := Credential_Username c;
     Credential_Password := s; Credential_DBName := Credential_DBName c |}.
Definition set_Credential_DBName (s : string) (c : Credential) : Credential :=
  {| Credential_Host := Credential_Host c; Credential_Port := Credential_Port c;
     Credential_Key := Credential_Key c; Credential_Username := Credential_Username c;
     Credential_Password := Credential_Password c; Credential_DBName := s |}.

#[export] Instance Credential_struct : json.Struct Credential :=
  [ json.Field "host" (json.SetString set_Credential_Host);
    json.Field "port" (json.SetInt set_Credential_Port);
    json.Field "key" (json.SetString set_Credential_Key);
    json.Field "username" (json.SetString set_Credential_Username);
    json.Field "password" (json.SetString set_Credential_Password);
    json.Field "dbname" (json.SetString set_Credential_DBName) ].

Definition set_dsn_Engine (s : string) (d : dsn) : dsn :=
  {| dsn_Engine := s; dsn_Host := dsn_Host d; dsn_DBName := dsn_DBName d;
     dsn_Username := dsn_Username d; dsn_Password := dsn_Password d;
     dsn_Port := dsn_Port d; dsn_SearchPath := dsn_SearchPath d;
     dsn_DBInstanceIdentifier := dsn_DBInstanceIdentifier d |}.
Definition set_dsn_Host (s : string) (d : dsn) : dsn :=
  {| dsn_Engine := dsn_Engine d; dsn_Host := s; dsn_DBName := dsn_DBName d;
     dsn_Username := dsn_Username d; dsn_Password := dsn_Password d;
     dsn_Port := dsn_Port d; dsn_SearchPath := dsn_SearchPath d;
     dsn_DBInstanceIdentifier := dsn_DBInstanceIdentifier d |}.
Definition set_dsn_DBName (s : string) (d : dsn) : dsn :=
  {| dsn_Engine := dsn_Engine d; dsn_Host := dsn_Host d; dsn_DBName := s;
     dsn_Username := dsn_Username d; dsn_Password := dsn_Password d;
     dsn_Port := dsn_Port d; dsn_SearchPath := dsn_SearchPath d;
     dsn_DBInstanceIdentifier := dsn_DBInstanceIdentifier d |}.
Definition set_dsn_Username (s : string) (d : dsn) : dsn :=
  {| dsn_Engine := dsn_Engine d; dsn_Host := dsn_Host d; dsn_DBName := dsn_DBName d;
     dsn_Username := s; dsn_Password := dsn_Password d;
     dsn_Port := dsn_Port d; dsn_SearchPath := dsn_SearchPath d;
     dsn_DBInstanceIdentifier := dsn_DBInstanceIdentifier d |}.
Definition set_dsn_Password (s : string) (d : dsn) : dsn :=
  {| dsn_Engine := dsn_Engine d; dsn_Host := dsn_Host d; dsn_DBName := dsn_DBName d;
     dsn_Username := dsn_Username d; dsn_Password := s;
     dsn_Port := dsn_Port d; dsn_SearchPath := dsn_SearchPath d;
     dsn_DBInstanceIdentifier := dsn_DBInstanceIdentifier d |}.
Definition set_dsn_Port (n : Z) (d : dsn) : dsn :=
  {| dsn_Engine := dsn_Engine d; dsn_Host := dsn_Host d; dsn_DBName := dsn_DBName d;
     dsn_Username := dsn_Username d; dsn_Password := dsn_Password d;
     dsn_Port := n; dsn_SearchPath := dsn_SearchPath d;
     dsn_DBInstanceIdentifier := dsn_DBInstanceIdentifier d |}.
Definition set_dsn_SearchPath (s : string) (d : dsn) : dsn :=
  {| dsn_Engine := dsn_Engine d; dsn_Host := dsn_Host d; dsn_DBName := dsn_DBName d;
     dsn_Username := dsn_Username d; dsn_Password := dsn_Password d;
     dsn_Port := dsn_Port d; dsn_SearchPath := s;
     dsn_DBInstanceIdentifier := dsn_DBInstanceIdentifier d |}.
Definition set_dsn_DBInstanceIdentifier (s : string) (d : dsn) : dsn :=
  {| dsn_Engine := dsn_Engine d; dsn_Host := dsn_Host d; dsn_DBName := dsn_DBName d;
     dsn_Username := dsn_Username d; dsn_Password := dsn_Password d;
     dsn_Port := dsn_Port d; dsn_SearchPath := dsn_SearchPath d;
     dsn_DBInstanceIdentifier := s |}.

#[export] Instance dsn_struct : json.Struct dsn :=
  [ json.Field "engine" (json.SetString set_dsn_Engine);
    json.Field "host" (json.SetString set_dsn_Host);
    json.Field "dbname" (json.SetString set_dsn_DBName);
    json.Field "username" (json.SetString set_dsn_Username);
    json.Field "password" (json.SetString set_dsn_Password);
    json.Field "port" (json.SetInt set_dsn_Port);
    json.Field "search_path" (json.SetString set_dsn_SearchPath);
    json.Field "dbInstanceIdentifier" (json.SetString set_dsn_DBInstanceIdentifier) ].

(** ** The AWS SDK, as the package sees it *)

(** A session handle; [None] of type [option Session] is the nil session. *)
Inductive Session : Type := SessionHandle (id : nat).

Inductive SharedConfigState : Type :=
| SharedConfigStateFromEnv | SharedConfigDisable | SharedConfigEnable.

Record Options : Type := { Options_SharedConfigState : SharedConfigState }.

Record GetSecretValueInput : Type := {
  SecretId : string;
  VersionStage : string
}.

(** The output of GetSecretValue: [SecretString] is nil for a secret
    stored as binary. *)
Record GetSecretValueOutput : Type := {
  SecretString : option string;
  SecretBinary : option string
}.

(** The secrets-manager client made from a session. *)
Record SecretsManager : Type := { client_session : Session }.

Module secretsmanager.
Definition New (sess : Session) : SecretsManager := {| client_session := sess |}.
End secretsmanager.

(** The world outside the package: the session [session.New] gives (it
    cannot fail), what [session.NewSessionWithOptions] answers and what one
    GetSecretValue request answers.  Each exported function
    makes each call at most once, so a function of the arguments is
    enough. *)
Record Backend : Type := {
  backend_New : Session;
  backend_NewSessionWithOptions : Options -> Session + error;
  backend_GetSecretValue : Session -> GetSecretValueInput -> GetSecretValueOutput + error
}.

(** ** Computations: a heap, and the record of the outside calls *)

Inductive event : Type :=
| EvNew
| EvNewSession (opts : Options)
| EvGetSecretValue (sess : Session) (input : GetSecretValueInput)
| EvUnmarshal (data : string).

Definition loc : Type := positive.

(** A pointer: [None] is nil. *)
Definition ptr : Type := option loc.

Inductive object : Type :=
| ObjAPICredential (c : APICredential)
| ObjCredential (c : Credential).

Definition M (A : Type) : Type := gmap loc object -> A * gmap loc object * list event.

Definition ret {A} (a : A) : M A := fun h => (a, h, []).

Definition bind {A B} (m : M A) (k : A -> M B) : M B :=
  fun h =>
    let '(a, h1, t1) := m h in
    let '(b, h2, t2) := k a h1 in
    (b, h2, t1 ++ t2).

#[export] Instance M_ret : MRet M := @ret.
#[export] Instance M_bind : MBind M := fun A B k m => bind m k.

(** The value, the final heap and the events of a run. *)
Definition result_of {A} (r : A * gmap loc object * list event) : A := r.1.1.
Definition heap_of {A} (r : A * gmap loc object * list event) : gmap loc object := r.1.2.
Definition events_of {A} (r : A * gmap loc object * list event) : list event := r.2.

Definition is_unmarshal (e : event) : bool :=
  match e with EvUnmarshal _ => true | _ => false end.

(** No JSON decoding was attempted in a run with events [t]. *)
Definition no_unmarshal (t : list event) : Prop :=
  forallb (fun e => negb (is_unmarshal e)) t = true.

(** [&T{...}]: a record at a location that was not in use. *)
Definition new (o : object) : M ptr :=
  fun h => let l := fresh (dom h) in (Some l, <[l := o]> h, []).

(** How a record type is stored in the heap. *)
Class Boxed (T : Type) : Type := { box : T -> object; unbox : object -> option T }.

#[export] Instance Credential_boxed : Boxed Credential :=
  {| box := ObjCredential;
     unbox := fun o => match o with ObjCredential c => Some c | _ => None end |}.

#[export] Instance APICredential_boxed : Boxed APICredential :=
  {| box := ObjAPICredential;
     unbox := fun o => match o with ObjAPICredential c => Some c | _ => None end |}.

Definition load {T} `{Boxed T} (p : ptr) (h : gmap loc object) : option T :=
  match p with
  | Some l => match h !! l with Some o => unbox o | None => None end
  | None => None
  end.

Module json_call.

(** [json.Unmarshal(data, &x)] for a local variable [x]. *)
Definition Unmarshal {T} `{json.Struct T} (data : string) (x : T) : M (T * option error) :=
  fun h => (json.unmarshal data x, h, [EvUnmarshal data]).

(** [json.Unmarshal(data, p)] for a pointer [p] into the heap.  A pointer
    that is nil is refused, after the syntax check, with an
    InvalidUnmarshalError. *)
Definition UnmarshalAt (T : Type) `{json.Struct T} `{Boxed T} (data : string) (p : ptr)
  : M (option error) :=
  fun h =>
    match p, load (T:=T) p h with
    | Some l, Some x =>
        let '(x', err) := json.unmarshal data x in
        (err, <[l := box x']> h, [EvUnmarshal data])
    | _, _ =>
        (Some (match json.parse data with
               | None => SyntaxError
               | Some _ => InvalidUnmarshalError
               end), h, [EvUnmarshal data])
    end.

End json_call.

(** ** The package *)

Section awssecret.

Variable aws : Backend.

Definition session_NewSessionWithOptions (opts : Options) : M (Session + error) :=
  fun h => (backend_NewSessionWithOptions aws opts, h, [EvNewSession opts]).

Definition svc_GetSecretValue (svc : SecretsManager) (input : GetSecretValueInput)
  : M (GetSecretValueOutput + error) :=
  fun h => (backend_GetSecretValue aws (client_session svc) input, h,
            [EvGetSecretValue (client_session svc) input]).

(** [GetStringSecret] retrieves the named secret and returns it in its
    raw form. *)
Definition GetStringSecret (sess : option Session) (secretName : string)
  : M (string * option error) :=
  (* Create a Secrets Manager client if one was not passed in *)
  s ← match sess with
       | None =>
           session_NewSessionWithOptions
             {| Options_SharedConfigState := SharedConfigEnable |}
       | Some s => ret (inl s)
       end;
  match s with
  | inr err => ret (EmptyString, Some err)
  | inl sess =>
      let svc := secretsmanager.New sess in
      let input := {| SecretId := secretName; VersionStage := "AWSCURRENT" |} in
      r ← svc_GetSecretValue svc input;
      match r with
      | inr err =>
          match as_awserr err with
          | Some code =>
              ret (EmptyString,
                   errors.Wrapf (Some err)
                     ("Failed to get secret from AWS Secrets Manager: " +:+ code))
          | None =>
              ret (EmptyString,
                   errors.Wrapf (Some err)
                     "Fasiled to get secret from AWS Secrets Manager: Unknown error description")
          end
      | inl result =>
          match SecretString result with
          | Some secret => ret (secret, None)
          | None => ret (EmptyString, errors.New "Secret is not a string")
          end
      end
  end.

(** [GetAPICredentialSecret] retrieves and JSON-decodes a secret into an
    [APICredential]. *)
Definition GetAPICredentialSecret (sess : option Session) (secretName : string)
  : M (ptr * option error) :=
  cred ← new (ObjAPICredential APICredential_zero);
  '(secret, err) ← GetStringSecret sess secretName;
  match err with
  | Some _ =>
      ret (cred, errors.Wrapf err "Couldn't build credential. Failed to retrieve secret.")
  | None =>
      err ← json_call.UnmarshalAt APICredential secret cred;
      match err with
      | Some _ =>
          ret (cred, errors.Wrapf err "Couldn't build credential. Failed to decode JSON.")
      | None => ret (cred, None)
      end
  end.

(** [GetCredentialSecret] retrieves and JSON-decodes a secret into a
    [Credential]. *)
Definition GetCredentialSecret (sess : option Session) (secretName : string)
  : M (ptr * option error) :=
  cred ← new (ObjCredential Credential_zero);
  '(secret, err) ← GetStringSecret sess secretName;
  match err with
  | Some _ =>
      ret (cred, errors.Wrapf err "Couldn't build credential. Failed to retrieve secret.")
  | None =>
      err ← json_call.UnmarshalAt Credential secret cred;
      match err with
      | Some _ =>
          ret (cred, errors.Wrapf err "Couldn't build credential. Failed to decode JSON.")
      | None => ret (cred, None)
      end
  end.

(** [s.WriteString(x)] on a strings.Builder holding [s]. *)
Definition WriteString (s x : string) : string := s +:+ x.

(** [GetPostgresDSNSecret] retrieves the named secret and converts it
    from JSON into a Postgres DSN string. *)
Definition GetPostgresDSNSecret (sess : option Session) (secretName : string)
  : M (string * option error) :=
  '(str, err) ← GetStringSecret sess secretName;
  match err with
  | Some _ =>
      ret (EmptyString,
           errors.Wrapf err "Couldn't build DSN. Failed to retrieve secret")
  | None =>
      (* If the string already looks like a DSN, just return it *)
      if (strings.Index str "host=" >=? 0) && (strings.Index str "dbname=" >=? 0)
      then ret (str, None)
      else
        '(d, err) ← json_call.Unmarshal str dsn_zero;
        match err with
        | Some _ => ret (str, err)
        | None =>
            let s := EmptyString in
            let s := if negb (String.eqb (dsn_Host d) EmptyString)
                     then WriteString (WriteString (WriteString s "host=") (dsn_Host d)) " "
                     else s in
            let s := if negb (String.eqb (dsn_DBName d) EmptyString)
                     then WriteString (WriteString (WriteString s "dbname=") (dsn_DBName d)) " "
                     else s in
            let s := if negb (String.eqb (dsn_Username d) EmptyString)
                     then WriteString (WriteString (WriteString s "user=") (dsn_Username d)) " "
                     else s in
            let s := if negb (String.eqb (dsn_Password d) EmptyString)
                     then WriteString (WriteString (WriteString s "password=") (dsn_Password d)) " "
                     else s in
            let s := if negb (String.eqb (dsn_SearchPath d) EmptyString)
                     then WriteString (WriteString (WriteString s "search_path=") (dsn_SearchPath d)) " "
                     else s in
            ret (s, None)
        end
  end.

End awssecret.

(** ** The earlier revision of the package (awssecret.go)

    It has the fetcher and the DSN formatter only, and builds the default
    session with [session.New], which cannot fail. *)

Module rev0.
Section awssecret.

Variable aws : Backend.

Definition session_New : M Session :=
  fun h => (backend_New aws, h, [EvNew]).

Definition GetStringSecret (sess : option Session) (secretName : string)
  : M (string * option error) :=
  (* Create a Secrets Manager client if one was not passed in *)
  sess ← match sess with
          | None => session_New
          | Some s => ret s
          end;
  let svc := secretsmanager.New sess in
  let input := {| SecretId := secretName; VersionStage := "AWSCURRENT" |} in
  r ← svc_GetSecretValue aws svc input;
  match r with
  | inr err =>
      match as_awserr err with
      | Some code =>
          ret (EmptyString,
               errors.Wrapf (Some err)
                 ("Failed to get secret from AWS Secrets Manager: " +:+ code))
      | None =>
          ret (EmptyString,
               errors.Wrapf (Some err)
                 "Fasiled to get secret from AWS Secrets Manager: Unknown error description")
      end
  | inl result =>
      match SecretString result with
      | Some secret => ret (secret, None)
      | None => ret (EmptyString, errors.New "Secret is not a string")
      end
  end.

Definition GetPostgresDSNSecret (sess : option Session) (secretName : string)
  : M (string * option error) :=
  '(str, err) ← GetStringSecret sess secretName;
  match err with
  | Some _ =>
      ret (EmptyString,
           errors.Wrapf err "Couldn't build DSN. Failed to retrieve secret")
  | None =>
      (* If the string already looks like a DSN, just return it *)
      if (strings.Index str "host=" >=? 0) && (strings.Index str "dbname=" >=? 0)
      then ret (str, None)
      else
        '(d, err) ← json_call.Unmarshal str dsn_zero;
        match err with
        | Some _ => ret (str, err)
        | None =>
            let s := EmptyString in
            let s := if negb (String.eqb (dsn_Host d) EmptyString)
                     then WriteString (WriteString (WriteString s "host=") (dsn_Host d)) " "
                     else s in
            let s := if negb (String.eqb (dsn_DBName d) EmptyString)
                     then WriteString (WriteString (WriteString s "dbname=") (dsn_DBName d)) " "
                     else s in
            let s := if negb (String.eqb (dsn_Username d) EmptyString)
                     then WriteString (WriteString (WriteString s "user=") (dsn_Username d)) " "
                     else s in
            let s := if negb (String.eqb (dsn_Password d) EmptyString)
                     then WriteString (WriteString (WriteString s "password=") (dsn_Password d)) " "
                     else s in
            let s := if negb (String.eqb (dsn_SearchPath d) EmptyString)
                     then WriteString (WriteString (WriteString s "search_path=") (dsn_SearchPath d)) " "
                     else s in
            ret (s, None)
        end
  end.

End awssecret.
End rev0.

(** ** Reading the fetcher *)

(** The session the fetcher works with: the one passed in, or the default
    one when that can be built. *)
Definition session_used (aws : Backend) (sess : option Session) : Session + error :=
  match sess with
  | Some s => inl s
  | None => backend_NewSessionWithOptions aws {| Options_SharedConfigState := SharedConfigEnable |}
  end.

Definition current_version (secretName : string) : GetSecretValueInput :=
  {| SecretId := secretName; VersionStage := "AWSCURRENT" |}.

(** ** The DSN string, in the words of the specification *)

Definition retrieve_msg : string := "Couldn't build credential. Failed to retrieve secret.".
Definition decode_msg : string := "Couldn't build credential. Failed to decode JSON.".
Definition dsn_retrieve_msg : string := "Couldn't build DSN. Failed to retrieve secret".

(** The DSN string, following the words of the specification: one token
    [key=value ] for each non-empty value, in the order host, dbname, user,
    password, search_path. *)
Definition dsn_token (key value : string) : string :=
  if String.eqb value EmptyString then EmptyString
  else key +:+ "=" +:+ value +:+ " ".

Definition dsn_string (host dbname username password searchPath : string) : string :=
  dsn_token "host" host +:+ dsn_token "dbname" dbname +:+ dsn_token "user" username
  +:+ dsn_token "password" password +:+ dsn_token "search_path" searchPath.

Definition dsn_string_of (d : dsn) : string :=
  dsn_string (dsn_Host d) (dsn_DBName d) (dsn_Username d) (dsn_Password d)
    (dsn_SearchPath d).

(** What GetPostgresDSNSecret does once the string is fetched, in one
    expression: its result and the calls it records.  [GetPostgresDSNSecret_run]
    shows that the function of the source is this. *)
Definition format_secret (str : string) : (string * option error) * list event :=
  if (strings.Index str "host=" >=? 0) && (strings.Index str "dbname=" >=? 0)
  then ((str, None), [])
  else
    match json.unmarshal str dsn_zero with
    | (_, Some e) => ((str, Some e), [EvUnmarshal str])
    | (d, None) => ((dsn_string_of d, None), [EvUnmarshal str])
    end.

(** ** What a payload holds *)

(** A name as case folding sees it. *)
Fixpoint fold_name (n : string) : list N :=
  match n with
  | EmptyString => []
  | String c r => json.upper c :: fold_name r
  end.

(** The value of the last member of [ms] whose key names the field [n]:
    the one that a decoder storing members in order ends with. *)
Fixpoint last_member (n : string) (ms : list (string * json.value)) : option json.value :=
  match ms with
  | [] => None
  | (k, v) :: ms' =>
      match last_member n ms' with
      | Some v' => Some v'
      | None => if json.equalFold n k then Some v else None
      end
  end.

Definition read_string (v : json.value) : option string :=
  match v with json.Str s => Some s | _ => None end.

Definition read_int (v : json.value) : option Z :=
  match v with json.Number lit => strconv.ParseInt lit | _ => None end.

Definition is_some {A} (o : option A) : bool :=
  match o with Some _ => true | None => false end.

(** A member fits when, if its key names a string field, its value is a
    string, and if its key names an integer field, its value is an integer
    literal within 64 bits. *)
Definition member_fits (string_fields int_fields : list string)
    (m : string * json.value) : bool :=
  forallb (fun n => implb (json.equalFold n m.1) (is_some (read_string m.2))) string_fields
  && forallb (fun n => implb (json.equalFold n m.1) (is_some (read_int m.2))) int_fields.

(** The members of a JSON object match the Credential shape. *)
Definition Credential_shape (ms : list (string * json.value)) : bool :=
  forallb (member_fits ["host"; "key"; "username"; "password"; "dbname"] ["port"]) ms.

(** What the payload holds for a field: the value of the last member naming
    it, the zero value when no member names it. *)
Definition string_member (n : string) (ms : list (string * json.value)) : string :=
  match last_member n ms with
  | Some v => default EmptyString (read_string v)
  | None => EmptyString
  end.

Definition int_member (n : string) (ms : list (string * json.value)) : Z :=
  match last_member n ms with
  | Some v => default 0 (read_int v)
  | None => 0
  end.

(** The record the payload denotes. *)
Definition Credential_of (ms : list (string * json.value)) : Credential :=
  {| Credential_Host := string_member "host" ms;
     Credential_Port := int_member "port" ms;
     Credential_Key := string_member "key" ms;
     Credential_Username := string_member "username" ms;
     Credential_Password := string_member "password" ms;
     Credential_DBName := string_member "dbname" ms |}.

(** The five fields a DSN is built from. *)
Definition dsn_emitted_fields : list string :=
  ["host"; "dbname"; "username"; "password"; "search_path"].

(** Every member naming one of the five fields holds the empty string. *)
Definition dsn_fields_absent_or_empty (v : json.value) : bool :=
  match v with
  | json.Object ms =>
      forallb (fun m : string * json.value =>
                 implb (existsb (fun n => json.equalFold n m.1) dsn_emitted_fields)
                       (match m.2 with
                        | json.Str s => String.eqb s EmptyString
                        | _ => false
                        end)) ms
  | _ => true
  end.

(** What the caller of a credential decoder holds after the call: the
    record the returned pointer leads to, and the error. *)
Definition returned {A} (r : (ptr * A) * gmap loc object * list event)
  : option object * A :=
  (match (result_of r).1 with
   | Some l => heap_of r !! l
   | None => None
   end, (result_of r).2).

(** ** The string literals the scanner lets through *)

Definition is_hex (c : ascii) : bool := is_some (json.hex_val c).

(** [body_ok s]: [s] is made of plain bytes (no control byte, quote or
    backslash), escapes of one character and escapes of four hexadecimal
    digits. *)
Fixpoint body_ok (s : string) : bool :=
  match s with
  | EmptyString => true
  | String c r =>
      if Ascii.eqb c backslash then
        match r with
        | String e r1 =>
            if json.scan_escape e then body_ok r1
            else if Ascii.eqb e "u" then
              match r1 with
              | String x (String y (String z (String w r6))) =>
                  is_hex x && is_hex y && is_hex z && is_hex w && body_ok r6
              | _ => false
              end
            else false
        | EmptyString => false
        end
      else if Ascii.eqb c dquote || (byte_val c <? 32)%N then false
      else body_ok r
  end.

(** What holds of the bytes read so far in each state of the scanner
    inside a string literal. *)
Definition lex_state_ok (st : json.lex_state) : Prop :=
  match st with
  | json.LexString raw => body_ok (json.text raw) = true
  | json.LexStringEsc raw =>
      exists raw', raw = backslash :: raw' /\ body_ok (json.text raw') = true
  | json.LexStringEscU n raw =>
      exists raw' ds,
        raw = ds ++ "u"%char :: backslash :: raw'
        /\ body_ok (json.text raw') = true
        /\ (length ds + n = 4)%nat /\ (1 <= n)%nat
        /\ forallb is_hex ds = true
  | _ => True
  end.

(** The state of the scanner after the bytes of [data], [None] when it
    has stopped on an error. *)
Fixpoint lex_run (st : json.lex_state) (data : string) : option json.lex_state :=
  match data with
  | EmptyString => Some st
  | String c r =>
      match json.lex_step st c with
      | Some (st', _) => lex_run st' r
      | None => None
      end
  end.

(** ** Two claims, as they are stated *)

(** C5, as stated: on a fetched string that is not JSON every decoder
    returns a non-nil error, and the fetched string can be had back from
    what the decoder returns. *)
Definition C5_as_stated : Prop :=
  (forall aws sess secretName (h : gmap loc object) payload,
      result_of (GetStringSecret aws sess secretName h) = (payload, None) ->
      json.parse payload = None ->
      (result_of (GetCredentialSecret aws sess secretName h)).2 <> None
      /\ (result_of (GetAPICredentialSecret aws sess secretName h)).2 <> None
      /\ (result_of (GetPostgresDSNSecret aws sess secretName h)).2 <> None)
  /\ (exists recover : option object * option error -> string,
        forall aws sess secretName (h : gmap loc object) payload,
          result_of (GetStringSecret aws sess secretName h) = (payload, None) ->
          json.parse payload = None ->
          recover (returned (GetCredentialSecret aws sess secretName h)) = payload).

(** C10, as stated: every valid JSON payload whose five fields are absent
    or empty makes GetPostgresDSNSecret return the empty string and a nil
    error. *)
Definition C10_as_stated : Prop :=
  forall aws sess secretName (h : gmap loc object) payload v,
    result_of (GetStringSecret aws sess secretName h) = (payload, None) ->
    json.parse payload = Some v ->
    dsn_fields_absent_or_empty v = true ->
    result_of (GetPostgresDSNSecret aws sess secretName h) = (EmptyString, None).

(** ** Sample backends and payloads *)

Definition backend_answering (session : Session + error)
    (answer : GetSecretValueOutput + error) : Backend :=
  {| backend_New := SessionHandle 0;
     backend_NewSessionWithOptions := fun _ => session;
     backend_GetSecretValue := fun _ _ => answer |}.

(** A backend whose secret is the string [payload]. *)
Definition backend_holding (payload : string) : Backend :=
  backend_answering (inl (SessionHandle 0))
    (inl {| SecretString := Some payload; SecretBinary := None |}).

(** A backend whose secret is binary. *)
Definition backend_binary : Backend :=
  backend_answering (inl (SessionHandle 0))
    (inl {| SecretString := None; SecretBinary := Some "0102" |}).

(** A backend that refuses the request. *)
Definition backend_failing (e : error) : Backend :=
  backend_answering (inl (SessionHandle 0)) (inr e).

Definition sample_payload : string :=
  js "{'engine':'postgres','port':5432,'dbname':'app','dbInstanceIdentifier':'i1'}".

Definition sample_credential : string :=
  js "{'host':'db1','port':5432,'key':'k1','username':'u','password':'p','dbname':'app','tags':['a',1]}".

Definition port_as_string : string := js "{'port':'5432'}".
Definition engine_like_dsn : string := js "{'engine':'host=dbname='}".

Definition only_unused_fields : string :=
  js "{'engine':'postgres','port':5432,'dbInstanceIdentifier':'i1','host':''}".

Definition garbage_after_aa : string := js "'aa'x".
Definition garbage_after_ab : string := js "'ab'x".

(** ** Tactics *)

Ltac run :=
  unfold mbind, M_bind, bind, mret, M_ret, ret,
    session_NewSessionWithOptions, svc_GetSecretValue, rev0.session_New,
    json_call.Unmarshal, json_call.UnmarshalAt, new,
    errors.New, errors.Wrapf, result_of, heap_of, events_of in *;
  cbn [fst snd] in *.

Ltac in_list H :=
  cbn [In] in H; repeat (destruct H as [<-|H]); try (exfalso; exact H).

Ltac store_cases :=
  let f := fresh "f" in let v := fresh "v" in let x := fresh "x" in
  let H := fresh "H" in
  intros f v x H; in_list H; destruct v;
  cbn [json.store_value json.store json.name fst String.eqb Ascii.eqb Bool.eqb
       read_string read_int default];
  try reflexivity;
  try (match goal with |- context [strconv.ParseInt ?l] =>
         destruct (strconv.ParseInt l) end; reflexivity).

(** ** Further notions used by the properties beyond the claims *)

(** The members of a JSON object match the APICredential shape. *)
Definition APICredential_shape (ms : list (string * json.value)) : bool :=
  forallb (member_fits ["baseURL"; "key"; "secret"] []) ms.

(** The error, if any, of storing [v] into a field with setter [st]; it
    does not depend on the record stored into. *)
Definition value_error {T} (f : json.field T) (v : json.value) : option error :=
  match v, json.store f with
  | json.Null, _ => None
  | json.Str _, json.SetString _ => None
  | json.Number lit, json.SetInt _ =>
      match strconv.ParseInt lit with
      | Some _ => None
      | None => Some (UnmarshalTypeError ("number " +:+ lit) (json.name f))
      end
  | _, _ => Some (UnmarshalTypeError (json.kind_name v) (json.name f))
  end.

(** A member is stored without error. *)
Definition member_clean {T} (fs : list (json.field T)) (m : string * json.value) : bool :=
  match json.find_field fs m.1 with
  | Some f => negb (is_some (value_error f m.2))
  | None => true
  end.

(** What the last member naming [n] that holds a readable value holds. *)
Fixpoint last_read {A} (read : json.value -> option A) (n : string)
    (ms : list (string * json.value)) : option A :=
  match ms with
  | [] => None
  | (k, v) :: ms' =>
      match last_read read n ms' with
      | Some a => Some a
      | None => if json.equalFold n k then read v else None
      end
  end.

(** The members of [ms] whose key names the field [n]. *)
Definition naming (n : string) (ms : list (string * json.value))
  : list (string * json.value) :=
  List.filter (fun m => json.equalFold n m.1) ms.

(** No field a DSN is built from is named by two members. *)
Definition dsn_fields_named_once (ms : list (string * json.value)) : Prop :=
  forall n, In n dsn_emitted_fields -> (length (naming n ms) <= 1)%nat.

Definition reordered_payload : string :=
  js "{'dbname':'app','port':5432,'host':'db1'}".
Definition ordered_payload : string :=
  js "{'host':'db1','dbname':'app','port':5432}".
Definition sample_api_credential : string :=
  js "{'baseURL':'https://api.example.com','key':'k1','secret':'s1','note':null}".

(** The error json.Unmarshal returns for a JSON text that is not an object:
    none for null, a type error naming the kind of the value otherwise. *)
Definition non_object_error (v : json.value) : option error :=
  match v with
  | json.Null => None
  | _ => Some (UnmarshalTypeError (json.kind_name v) EmptyString)
  end.

Definition is_object (v : json.value) : bool :=
  match v with json.Object _ => true | _ => false end.

(** * Properties *)

(** ** Substring search *)

Lemma HasPrefix_app (p r : string) : strings.HasPrefix (p +:+ r) p = true.
Proof.
  induction p as [|c p IH]; simpl; [reflexivity|].
  rewrite Ascii.eqb_refl. exact IH.
Qed.

Lemma HasPrefix_inv (s p : string) :
  strings.HasPrefix s p = true -> exists r, s = p +:+ r.
Proof.
  revert s. induction p as [|c p IH]; intros s H; cbn [strings.HasPrefix] in *.
  - exists s. reflexivity.
  - destruct s as [|d s]; [discriminate|].
    apply andb_prop in H as [Hc Hp]. apply Ascii.eqb_eq in Hc. subst d.
    destruct (IH _ Hp) as [r ->]. exists r. reflexivity.
Qed.

Lemma Index_unfold (s sub : string) :
  strings.Index s sub =
    if strings.HasPrefix s sub then 0
    else match s with
         | EmptyString => -1
         | String _ r => if strings.Index r sub <? 0 then -1 else strings.Index r sub + 1
         end.
Proof. destruct s; reflexivity. Qed.

Lemma Index_lower (s sub : string) : -1 <= strings.Index s sub.
Proof.
  induction s as [|c s IH]; rewrite Index_unfold;
    destruct (strings.HasPrefix _ sub); try lia.
  destruct (strings.Index s sub <? 0) eqn:E; lia.
Qed.

(** [strings.Index] finds a substring exactly when there is one. *)
Lemma Index_contains (s sub : string) :
  0 <= strings.Index s sub <-> contains s sub.
Proof.
  split.
  - induction s as [|c s IH]; rewrite Index_unfold;
      destruct (strings.HasPrefix _ sub) eqn:P; intros H.
    + apply HasPrefix_inv in P as [r Hr]. exists EmptyString, r. exact Hr.
    + lia.
    + apply HasPrefix_inv in P as [r Hr]. exists EmptyString, r. exact Hr.
    + destruct (strings.Index s sub <? 0) eqn:E; [lia|].
      apply Z.ltb_ge in E. destruct (IH E) as (a & b & ->).
      exists (String c a), b. reflexivity.
  - intros (a & b & ->). induction a as [|c a IH]; rewrite Index_unfold.
    + change (EmptyString +:+ sub +:+ b) with (sub +:+ b).
      rewrite HasPrefix_app. lia.
    + destruct (strings.HasPrefix _ sub); [lia|].
      change (String c a +:+ sub +:+ b) with (String c (a +:+ sub +:+ b)).
      cbv iota.
      destruct (strings.Index (a +:+ sub +:+ b) sub <? 0) eqn:E.
      * apply Z.ltb_lt in E. lia.
      * apply Z.ltb_ge in E. lia.
Qed.

Lemma looks_like_dsn_true (str : string) :
  contains str "host=" -> contains str "dbname=" ->
  (strings.Index str "host=" >=? 0) && (strings.Index str "dbname=" >=? 0) = true.
Proof.
  intros H1 H2. apply Index_contains in H1, H2.
  apply andb_true_intro. split; apply Z.geb_le; lia.
Qed.

Lemma looks_like_dsn_false (str : string) :
  ~ (contains str "host=" /\ contains str "dbname=") ->
  (strings.Index str "host=" >=? 0) && (strings.Index str "dbname=" >=? 0) = false.
Proof.
  intros H. apply not_true_is_false. intros E. apply H.
  apply andb_prop in E as [E1 E2]. apply Z.geb_le in E1, E2.
  split; apply Index_contains; lia.
Qed.

(** ** The fetcher *)

(** The fetcher does not read or change the heap, and never decodes JSON. *)
Lemma GetStringSecret_heap aws sess secretName (h h' : gmap loc object) :
  heap_of (GetStringSecret aws sess secretName h) = h
  /\ result_of (GetStringSecret aws sess secretName h)
     = result_of (GetStringSecret aws sess secretName h')
  /\ events_of (GetStringSecret aws sess secretName h)
     = events_of (GetStringSecret aws sess secretName h')
  /\ no_unmarshal (events_of (GetStringSecret aws sess secretName h)).
Proof.
  unfold GetStringSecret, no_unmarshal. run.
  destruct sess as [s|]; cbn.
  - destruct (backend_GetSecretValue aws s _) as [out|e]; cbn.
    + destruct (SecretString out); cbn; auto.
    + destruct (as_awserr e); cbn; auto.
  - destruct (backend_NewSessionWithOptions aws _) as [s|e]; cbn; auto.
    destruct (backend_GetSecretValue aws s _) as [out|e]; cbn.
    + destruct (SecretString out); cbn; auto.
    + destruct (as_awserr e); cbn; auto.
Qed.

Lemma GetStringSecret_eta aws sess secretName (h : gmap loc object) :
  GetStringSecret aws sess secretName h
  = (result_of (GetStringSecret aws sess secretName h), h,
     events_of (GetStringSecret aws sess secretName h)).
Proof.
  pose proof (GetStringSecret_heap aws sess secretName h h) as (Hh & _).
  unfold result_of, heap_of, events_of in *.
  destruct (GetStringSecret aws sess secretName h) as [[r h1] t]; cbn in *.
  subst h1. reflexivity.
Qed.

Lemma rev0_GetStringSecret_heap aws sess secretName (h h' : gmap loc object) :
  heap_of (rev0.GetStringSecret aws sess secretName h) = h
  /\ result_of (rev0.GetStringSecret aws sess secretName h)
     = result_of (rev0.GetStringSecret aws sess secretName h')
  /\ events_of (rev0.GetStringSecret aws sess secretName h)
     = events_of (rev0.GetStringSecret aws sess secretName h')
  /\ no_unmarshal (events_of (rev0.GetStringSecret aws sess secretName h)).
Proof.
  unfold rev0.GetStringSecret, no_unmarshal. run.
  destruct sess as [s|]; cbn.
  - destruct (backend_GetSecretValue aws s _) as [out|e]; cbn.
    + destruct (SecretString out); cbn; auto.
    + destruct (as_awserr e); cbn; auto.
  - destruct (backend_GetSecretValue aws _ _) as [out|e]; cbn.
    + destruct (SecretString out); cbn; auto.
    + destruct (as_awserr e); cbn; auto.
Qed.

Lemma rev0_GetStringSecret_eta aws sess secretName (h : gmap loc object) :
  rev0.GetStringSecret aws sess secretName h
  = (result_of (rev0.GetStringSecret aws sess secretName h), h,
     events_of (rev0.GetStringSecret aws sess secretName h)).
Proof.
  pose proof (rev0_GetStringSecret_heap aws sess secretName h h) as (Hh & _).
  unfold result_of, heap_of, events_of in *.
  destruct (rev0.GetStringSecret aws sess secretName h) as [[r h1] t]; cbn in *.
  subst h1. reflexivity.
Qed.

(** ** What a run of each decoder is *)

Lemma append_cons (x : ascii) (a b : string) : String x a +:+ b = String x (a +:+ b).
Proof. reflexivity. Qed.

Lemma append_empty_l (a : string) : EmptyString +:+ a = a.
Proof. reflexivity. Qed.

Lemma append_assoc (a b c : string) : (a +:+ b) +:+ c = a +:+ b +:+ c.
Proof.
  induction a as [|x a IH]; [reflexivity|].
  rewrite !append_cons. now rewrite IH.
Qed.

Lemma append_empty_r (a : string) : a +:+ EmptyString = a.
Proof.
  induction a as [|x a IH]; [reflexivity|].
  rewrite append_cons. now rewrite IH.
Qed.

Lemma builder_step (s key value : string) :
  (if negb (String.eqb value EmptyString)
   then WriteString (WriteString (WriteString s (key +:+ "=")) value) " "
   else s) = s +:+ dsn_token key value.
Proof.
  unfold dsn_token, WriteString.
  destruct (String.eqb value EmptyString); cbn [negb].
  - now rewrite append_empty_r.
  - now rewrite !append_assoc.
Qed.

(** The builder of the source writes the string of the specification. *)
Lemma builder_dsn_string (d : dsn) :
  (let s := EmptyString in
   let s := if negb (String.eqb (dsn_Host d) EmptyString)
            then WriteString (WriteString (WriteString s "host=") (dsn_Host d)) " "
            else s in
   let s := if negb (String.eqb (dsn_DBName d) EmptyString)
            then WriteString (WriteString (WriteString s "dbname=") (dsn_DBName d)) " "
            else s in
   let s := if negb (String.eqb (dsn_Username d) EmptyString)
            then WriteString (WriteString (WriteString s "user=") (dsn_Username d)) " "
            else s in
   let s := if negb (String.eqb (dsn_Password d) EmptyString)
            then WriteString (WriteString (WriteString s "password=") (dsn_Password d)) " "
            else s in
   let s := if negb (String.eqb (dsn_SearchPath d) EmptyString)
            then WriteString (WriteString (WriteString s "search_path=") (dsn_SearchPath d)) " "
            else s in
   s) = dsn_string_of d.
Proof.
  cbv zeta.
  change "host=" with ("host" +:+ "=").
  change "dbname=" with ("dbname" +:+ "=").
  change "user=" with ("user" +:+ "=").
  change "password=" with ("password" +:+ "=").
  change "search_path=" with ("search_path" +:+ "=").
  rewrite !builder_step. unfold dsn_string_of, dsn_string.
  rewrite !append_assoc. rewrite append_empty_l. reflexivity.
Qed.

Lemma GetPostgresDSNSecret_run aws sess secretName (h : gmap loc object) :
  GetPostgresDSNSecret aws sess secretName h =
    match result_of (GetStringSecret aws sess secretName h) with
    | (_, Some e) =>
        ((EmptyString, Some (WithMessage e dsn_retrieve_msg)), h,
         events_of (GetStringSecret aws sess secretName h))
    | (str, None) =>
        ((format_secret str).1, h,
         events_of (GetStringSecret aws sess secretName h) ++ (format_secret str).2)
    end.
Proof.
  unfold GetPostgresDSNSecret, mbind, M_bind, bind.
  rewrite GetStringSecret_eta.
  destruct (result_of (GetStringSecret aws sess secretName h)) as [str [e|]].
  - run. rewrite app_nil_r. reflexivity.
  - unfold format_secret. run.
    destruct ((strings.Index str "host=" >=? 0) && (strings.Index str "dbname=" >=? 0)).
    + reflexivity.
    + destruct (json.unmarshal str dsn_zero) as [d [e|]]; cbn [fst snd].
      * rewrite app_nil_r. reflexivity.
      * rewrite builder_dsn_string, app_nil_r. reflexivity.
Qed.

Lemma rev0_GetPostgresDSNSecret_run aws sess secretName (h : gmap loc object) :
  rev0.GetPostgresDSNSecret aws sess secretName h =
    match result_of (rev0.GetStringSecret aws sess secretName h) with
    | (_, Some e) =>
        ((EmptyString, Some (WithMessage e dsn_retrieve_msg)), h,
         events_of (rev0.GetStringSecret aws sess secretName h))
    | (str, None) =>
        ((format_secret str).1, h,
         events_of (rev0.GetStringSecret aws sess secretName h) ++ (format_secret str).2)
    end.
Proof.
  unfold rev0.GetPostgresDSNSecret, mbind, M_bind, bind.
  rewrite rev0_GetStringSecret_eta.
  destruct (result_of (rev0.GetStringSecret aws sess secretName h)) as [str [e|]].
  - run. rewrite app_nil_r. reflexivity.
  - unfold format_secret. run.
    destruct ((strings.Index str "host=" >=? 0) && (strings.Index str "dbname=" >=? 0)).
    + reflexivity.
    + destruct (json.unmarshal str dsn_zero) as [d [e|]]; cbn [fst snd].
      * rewrite app_nil_r. reflexivity.
      * rewrite builder_dsn_string, app_nil_r. reflexivity.
Qed.

Lemma GetCredentialSecret_run aws sess secretName (h : gmap loc object) :
  let l := fresh (dom h) in
  GetCredentialSecret aws sess secretName h =
    match result_of (GetStringSecret aws sess secretName h) with
    | (_, Some e) =>
        ((Some l, Some (WithMessage e retrieve_msg)),
         <[l := ObjCredential Credential_zero]> h,
         events_of (GetStringSecret aws sess secretName h))
    | (secret, None) =>
        ((Some l, errors.Wrapf (json.unmarshal secret Credential_zero).2 decode_msg),
         <[l := ObjCredential (json.unmarshal secret Credential_zero).1]> h,
         events_of (GetStringSecret aws sess secretName h) ++ [EvUnmarshal secret])
    end.
Proof.
  intros l. unfold GetCredentialSecret, mbind, M_bind, bind, new.
  fold l. rewrite GetStringSecret_eta.
  destruct (GetStringSecret_heap aws sess secretName
              (<[l := ObjCredential Credential_zero]> h) h) as (_ & -> & -> & _).
  destruct (result_of (GetStringSecret aws sess secretName h)) as [secret [e|]].
  - run. rewrite app_nil_r. reflexivity.
  - unfold json_call.UnmarshalAt, load. rewrite lookup_insert_eq. cbn [unbox Credential_boxed box].
    destruct (json.unmarshal secret Credential_zero) as [c [e|]]; run;
      rewrite insert_insert_eq, app_nil_r; reflexivity.
Qed.

Lemma GetAPICredentialSecret_run aws sess secretName (h : gmap loc object) :
  let l := fresh (dom h) in
  GetAPICredentialSecret aws sess secretName h =
    match result_of (GetStringSecret aws sess secretName h) with
    | (_, Some e) =>
        ((Some l, Some (WithMessage e retrieve_msg)),
         <[l := ObjAPICredential APICredential_zero]> h,
         events_of (GetStringSecret aws sess secretName h))
    | (secret, None) =>
        ((Some l, errors.Wrapf (json.unmarshal secret APICredential_zero).2 decode_msg),
         <[l := ObjAPICredential (json.unmarshal secret APICredential_zero).1]> h,
         events_of (GetStringSecret aws sess secretName h) ++ [EvUnmarshal secret])
    end.
Proof.
  intros l. unfold GetAPICredentialSecret, mbind, M_bind, bind, new.
  fold l. rewrite GetStringSecret_eta.
  destruct (GetStringSecret_heap aws sess secretName
              (<[l := ObjAPICredential APICredential_zero]> h) h) as (_ & -> & -> & _).
  destruct (result_of (GetStringSecret aws sess secretName h)) as [secret [e|]].
  - run. rewrite app_nil_r. reflexivity.
  - unfold json_call.UnmarshalAt, load. rewrite lookup_insert_eq.
    cbn [unbox APICredential_boxed box].
    destruct (json.unmarshal secret APICredential_zero) as [c [e|]]; run;
      rewrite insert_insert_eq, app_nil_r; reflexivity.
Qed.

(** ** The scanner and the decoding of string literals agree

    The scanner checks a string literal byte by byte and [json.unquote]
    decodes it afterwards; the lemmas below show that a literal the scanner
    lets through is always decoded, so that [json.lex] rejects no string
    the scanner of encoding/json accepts. *)

Lemma body_ok_app_le (n : nat) (a b : string) :
  (String.length a <= n)%nat ->
  body_ok a = true -> body_ok b = true -> body_ok (a +:+ b) = true.
Proof.
  revert a. induction n as [|n IH]; intros a Hlen Ha Hb.
  - destruct a; [exact Hb|cbn in Hlen; lia].
  - destruct a as [|c r]; [exact Hb|].
    rewrite append_cons. cbn [body_ok] in Ha |- *. cbn [String.length] in Hlen.
    destruct (Ascii.eqb c backslash).
    + destruct r as [|e r1]; [discriminate|].
      rewrite append_cons. cbn [String.length] in Hlen.
      destruct (json.scan_escape e).
      * apply IH; [lia|assumption..].
      * destruct (Ascii.eqb e "u"); [|discriminate].
        destruct r1 as [|x [|y [|z [|w r6]]]]; try discriminate.
        rewrite !append_cons. cbn [String.length] in Hlen.
        apply andb_prop in Ha as [Hh Hr]. rewrite Hh. cbn [andb].
        apply IH; [lia|assumption..].
    + destruct (Ascii.eqb c dquote || (byte_val c <? 32)%N); [discriminate|].
      apply IH; [lia|assumption..].
Qed.

Lemma body_ok_app (a b : string) :
  body_ok a = true -> body_ok b = true -> body_ok (a +:+ b) = true.
Proof. exact (body_ok_app_le (String.length a) a b (le_n _)). Qed.

Lemma scan_escape_simple (e : ascii) :
  json.scan_escape e = true -> is_Some (json.simple_escape e).
Proof.
  unfold json.scan_escape, json.simple_escape. intros H.
  repeat match goal with
         | |- context [if ?b then _ else _] => destruct b eqn:?; [eauto|]
         end.
  repeat match goal with
         | E : _ || _ = false |- _ => apply orb_false_elim in E as [? ?]
         end.
  repeat match goal with
         | E : Ascii.eqb _ _ = false |- _ => rewrite E in H
         end.
  discriminate H.
Qed.

Lemma scan_escape_not_u (e : ascii) :
  Ascii.eqb e "u" = true -> json.scan_escape e = false /\ json.simple_escape e = None.
Proof. intros H. apply Ascii.eqb_eq in H. subst e. split; reflexivity. Qed.

Lemma getu4_hex (x y z w : ascii) (r : string) :
  is_hex x && is_hex y && is_hex z && is_hex w = true ->
  is_Some (json.getu4 (String backslash (String "u" (String x (String y (String z (String w r))))))).
Proof.
  unfold is_hex, is_some, json.getu4. rewrite !Ascii.eqb_refl. cbn [andb].
  destruct (json.hex_val x), (json.hex_val y), (json.hex_val z), (json.hex_val w);
    cbn; try discriminate; eauto.
Qed.

Lemma getu4_body (s : string) (rr : N) :
  json.getu4 s = Some rr ->
  exists x y z w r, s = String backslash (String "u" (String x (String y (String z (String w r)))))
                    /\ is_hex x && is_hex y && is_hex z && is_hex w = true.
Proof.
  destruct s as [|b0 [|b1 [|x [|y [|z [|w r]]]]]]; cbn [json.getu4]; try discriminate.
  destruct (Ascii.eqb b0 backslash) eqn:E0; [|discriminate].
  destruct (Ascii.eqb b1 "u") eqn:E1; [|discriminate]. cbn [andb].
  apply Ascii.eqb_eq in E0, E1. subst b0 b1.
  destruct (json.hex_val x) eqn:Hx, (json.hex_val y) eqn:Hy, (json.hex_val z) eqn:Hz,
    (json.hex_val w) eqn:Hw; try discriminate.
  intros _. exists x, y, z, w, r. split; [reflexivity|].
  unfold is_hex. now rewrite Hx, Hy, Hz, Hw.
Qed.

Lemma high_byte_plain (b : ascii) (r : string) :
  (128 <= byte_val b)%N -> body_ok (String b r) = body_ok r.
Proof.
  intros Hb. cbn [body_ok].
  destruct (Ascii.eqb_spec b backslash) as [->|_]; [vm_compute in Hb; now destruct Hb|].
  destruct (Ascii.eqb_spec b dquote) as [->|_]; [vm_compute in Hb; now destruct Hb|].
  cbn [orb]. destruct (N.ltb_spec (byte_val b) 32); [lia|reflexivity].
Qed.

Lemma first_lo (p0 : ascii) (sz : nat) (lo hi : N) :
  utf8.first p0 = Some (sz, lo, hi) -> (128 <= lo)%N.
Proof.
  unfold utf8.first.
  repeat match goal with
         | |- context [if ?b then _ else _] => destruct b
         end; intros [= <- <- <-] || discriminate; lia.
Qed.

Lemma in_range_lo (lo hi : N) (c : ascii) :
  in_range lo hi c = true -> (lo <= byte_val c)%N.
Proof. unfold in_range. intros H. apply andb_prop in H as [H _]. now apply N.leb_le. Qed.

(** The bytes [utf8.DecodeRune] takes together after the first one are
    continuation bytes. *)
Lemma DecodeRune_size (p0 : ascii) (r : string) (rr : N) (size : nat) :
  utf8.DecodeRune (String p0 r) = (rr, size) ->
  match size with
  | 2%nat => exists b1 r2, r = String b1 r2 /\ (128 <= byte_val b1)%N
  | 3%nat => exists b1 b2 r3, r = String b1 (String b2 r3)
                              /\ (128 <= byte_val b1)%N /\ (128 <= byte_val b2)%N
  | 4%nat => exists b1 b2 b3 r4, r = String b1 (String b2 (String b3 r4))
                                 /\ (128 <= byte_val b1)%N /\ (128 <= byte_val b2)%N
                                 /\ (128 <= byte_val b3)%N
  | _ => True
  end.
Proof.
  cbn [utf8.DecodeRune].
  destruct (byte_val p0 <? 128)%N; [now intros [= <- <-]|].
  destruct (utf8.first p0) as [[[sz lo] hi]|] eqn:Ef; [|now intros [= <- <-]].
  apply first_lo in Ef.
  destruct r as [|b1 r1]; [now intros [= <- <-]|].
  destruct (in_range lo hi b1) eqn:E1; cbn [negb]; [|now intros [= <- <-]].
  apply in_range_lo in E1.
  destruct (sz <=? 2)%nat; [intros [= <- <-]; exists b1, r1; split; [reflexivity|lia]|].
  destruct r1 as [|b2 r2]; [now intros [= <- <-]|].
  destruct (utf8.is_cont b2) eqn:E2; cbn [negb]; [|now intros [= <- <-]].
  apply in_range_lo in E2.
  destruct (sz <=? 3)%nat;
    [intros [= <- <-]; exists b1, b2, r2; repeat split; [lia|assumption]|].
  destruct r2 as [|b3 r3]; [now intros [= <- <-]|].
  destruct (utf8.is_cont b3) eqn:E3; cbn [negb]; [|now intros [= <- <-]].
  apply in_range_lo in E3.
  intros [= <- <-]. exists b1, b2, b3, r3. repeat split; [lia|assumption..].
Qed.

Lemma fmap_is_Some {A B} (f : A -> B) (o : option A) : is_Some o -> is_Some (f <$> o).
Proof. intros [a ->]. cbn. eauto. Qed.

(** A literal the scanner lets through is decoded. *)
Lemma unquote_ok_le (n : nat) (s : string) :
  (String.length s <= n)%nat -> body_ok s = true -> is_Some (json.unquote s).
Proof.
  revert s. induction n as [|n IH]; intros s Hlen Hs.
  - destruct s; [cbn; eauto|cbn in Hlen; lia].
  - destruct s as [|c r]; [cbn; eauto|].
    cbn [String.length] in Hlen.
    destruct (Ascii.eqb c backslash) eqn:Ec.
    + apply Ascii.eqb_eq in Ec. subst c.
      destruct r as [|e r1]; [discriminate Hs|].
      cbn [body_ok] in Hs. rewrite Ascii.eqb_refl in Hs.
      cbn [json.unquote]. rewrite Ascii.eqb_refl.
      cbn [String.length] in Hlen.
      destruct (json.scan_escape e) eqn:Ee.
      * destruct (scan_escape_simple e Ee) as [b ->].
        apply fmap_is_Some. apply IH; [lia|assumption].
      * destruct (Ascii.eqb e "u") eqn:Eu; [|discriminate Hs].
        destruct (scan_escape_not_u e Eu) as [_ ->].
        apply Ascii.eqb_eq in Eu. subst e.
        destruct r1 as [|x [|y [|z [|w r6]]]]; try discriminate Hs.
        apply andb_prop in Hs as [Hh Hr6].
        destruct (getu4_hex x y z w r6 Hh) as [rr ->].
        cbn [String.length] in Hlen.
        assert (H6 : is_Some (json.unquote r6)) by (apply IH; [lia|assumption]).
        destruct (utf16.IsSurrogate rr); [|now apply fmap_is_Some].
        destruct (json.getu4 r6) as [rr1|] eqn:E6; [|now apply fmap_is_Some].
        destruct (getu4_body r6 rr1 E6) as (x' & y' & z' & w' & r12 & -> & Hh').
        destruct (utf16.DecodeRune rr rr1 =? utf8.RuneError)%N;
          [now apply fmap_is_Some|].
        apply fmap_is_Some. apply IH; [cbn [String.length] in Hlen; lia|].
        cbn [body_ok] in Hr6. rewrite Ascii.eqb_refl in Hr6.
        change (json.scan_escape "u") with false in Hr6. cbn in Hr6.
        apply andb_prop in Hr6 as [_ Hr12]. exact Hr12.
    + cbn [json.unquote]. rewrite Ec.
      cbn [body_ok] in Hs. rewrite Ec in Hs.
      destruct (Ascii.eqb c dquote || (byte_val c <? 32)%N); [discriminate Hs|].
      destruct (byte_val c <? 128)%N.
      * apply fmap_is_Some. apply IH; [lia|assumption].
      * destruct (utf8.DecodeRune (String c r)) as [rr size] eqn:Ed.
        pose proof (DecodeRune_size c r rr size Ed) as Hsz.
        destruct size as [|[|[|[|[|size]]]]].
        -- destruct r; apply fmap_is_Some; apply IH; solve [lia|assumption|cbn in *; lia].
        -- destruct r; apply fmap_is_Some; apply IH; solve [lia|assumption|cbn in *; lia].
        -- destruct Hsz as (b1 & r2 & -> & H1). apply fmap_is_Some.
           rewrite high_byte_plain in Hs by assumption.
           apply IH; [cbn [String.length] in Hlen; lia|assumption].
        -- destruct Hsz as (b1 & b2 & r3 & -> & H1 & H2). apply fmap_is_Some.
           rewrite !high_byte_plain in Hs by assumption.
           apply IH; [cbn [String.length] in Hlen; lia|assumption].
        -- destruct Hsz as (b1 & b2 & b3 & r4 & -> & H1 & H2 & H3). apply fmap_is_Some.
           rewrite !high_byte_plain in Hs by assumption.
           apply IH; [cbn [String.length] in Hlen; lia|assumption].
        -- destruct r as [|? [|? [|? ?]]]; apply fmap_is_Some; apply IH;
             solve [lia|assumption|cbn in *; lia].
Qed.

Lemma unquote_ok (s : string) : body_ok s = true -> is_Some (json.unquote s).
Proof. exact (unquote_ok_le (String.length s) s (le_n _)). Qed.

Lemma string_of_list_ascii_app (a b : list ascii) :
  string_of_list_ascii (a ++ b) = string_of_list_ascii a +:+ string_of_list_ascii b.
Proof.
  induction a as [|x a IH]; [reflexivity|].
  cbn [app string_of_list_ascii]. rewrite append_cons. now rewrite IH.
Qed.

Lemma text_cons (c : ascii) (raw : list ascii) :
  json.text (c :: raw) = json.text raw +:+ String c EmptyString.
Proof. unfold json.text. cbn [rev]. apply string_of_list_ascii_app. Qed.

Lemma lex_begin_ok (c : ascii) st ts :
  json.lex_begin c = Some (st, ts) -> lex_state_ok st.
Proof.
  unfold json.lex_begin.
  repeat match goal with
         | |- context [if ?b then _ else _] => destruct b
         end; intros [= <- <-] || discriminate; exact I || reflexivity.
Qed.

(** The scanner keeps, inside a string literal, to literals that can be
    decoded. *)
Lemma lex_step_ok st c st' ts :
  lex_state_ok st -> json.lex_step st c = Some (st', ts) -> lex_state_ok st'.
Proof.
  destruct st as [|raw|raw|n raw|ns lit|rest t]; cbn [json.lex_step lex_state_ok].
  - intros _. apply lex_begin_ok.
  - intros Hraw.
    destruct (Ascii.eqb c dquote) eqn:Eq.
    { destruct (json.unquote (json.text raw)); intros [= <- <-] || discriminate. exact I. }
    destruct (Ascii.eqb c backslash) eqn:Eb.
    { intros [= <- <-]. apply Ascii.eqb_eq in Eb. subst c. exists raw. split; [reflexivity|assumption]. }
    destruct (byte_val c <? 32)%N eqn:E32; [discriminate|].
    intros [= <- <-]. cbn [lex_state_ok]. rewrite text_cons.
    apply body_ok_app; [assumption|]. cbn [body_ok]. now rewrite Eb, Eq, E32.
  - intros (raw' & -> & Hraw).
    destruct (json.scan_escape c) eqn:Ee.
    { intros [= <- <-]. cbn [lex_state_ok]. rewrite !text_cons, append_assoc.
      apply body_ok_app; [assumption|].
      rewrite append_cons, append_empty_l. cbn [body_ok].
      rewrite Ee. reflexivity. }
    destruct (Ascii.eqb c "u") eqn:Eu; [|discriminate].
    intros [= <- <-]. apply Ascii.eqb_eq in Eu. subst c.
    exists raw', []. repeat split; try reflexivity; try assumption. cbn; lia.
  - intros (raw' & ds & -> & Hraw & Hlen & Hn & Hhex).
    destruct (json.hex_val c) eqn:Ec; [|discriminate].
    assert (Hc : is_hex c = true) by (unfold is_hex; now rewrite Ec).
    destruct n as [|[|k]]; [lia| |].
    + intros [= <- <-]. cbn [lex_state_ok].
      destruct ds as [|d3 [|d2 [|d1 [|? ?]]]]; cbn [length] in Hlen; try lia.
      cbn [forallb] in Hhex.
      apply andb_prop in Hhex as [H3 Hhex]. apply andb_prop in Hhex as [H2 Hhex].
      apply andb_prop in Hhex as [H1 _].
      cbn [app]. rewrite !text_cons, !append_assoc.
      apply body_ok_app; [assumption|].
      rewrite !append_cons, !append_empty_l. cbn [body_ok].
      rewrite H1, H2, H3, Hc. reflexivity.
    + intros [= <- <-]. exists raw', (c :: ds).
      repeat split; try assumption; cbn [length forallb]; try lia.
      now rewrite Hc.
  - intros _. destruct (json.num_step ns c).
    + intros [= <- <-]. exact I.
    + destruct (json.num_final ns); [|discriminate].
      destruct (json.lex_begin c) as [[st1 ts1]|] eqn:Eb; [|discriminate].
      intros [= <- <-]. eapply lex_begin_ok; eassumption.
  - intros _. destruct rest as [|x [|y rest]]; [discriminate| |];
      destruct (Ascii.eqb c x); intros [= <- <-] || discriminate; exact I.
Qed.

Lemma lex_run_ok (data : string) st st' :
  lex_state_ok st -> lex_run st data = Some st' -> lex_state_ok st'.
Proof.
  revert st. induction data as [|c r IH]; intros st Hst; cbn [lex_run].
  - now intros [= <-].
  - destruct (json.lex_step st c) as [[st1 ts]|] eqn:E; [|discriminate].
    apply IH. eapply lex_step_ok; eassumption.
Qed.

(** Wherever the scanner stands inside a string literal, the closing quote
    gives a token: [json.lex] never stops for a literal it cannot decode. *)
Lemma closing_quote_accepted (data : string) (raw : list ascii) :
  lex_run json.LexStart data = Some (json.LexString raw) ->
  exists s, json.lex_step (json.LexString raw) dquote = Some (json.LexStart, [json.TString s]).
Proof.
  intros Hrun. apply (lex_run_ok data json.LexStart) in Hrun; [|exact I].
  cbn [lex_state_ok] in Hrun. destruct (unquote_ok _ Hrun) as [s Hs].
  exists s. cbn [json.lex_step]. rewrite Ascii.eqb_refl, Hs. reflexivity.
Qed.

(** ** The decoder on sample inputs *)

Example parse_nested :
  json.parse (js " [1, -2.5e+3, true, null, {'a' : [ ] , 'b':{}}] ")
  = Some (json.Array [json.Number "1"; json.Number "-2.5e+3"; json.Bool true; json.Null;
                      json.Object [("a", json.Array []); ("b", json.Object [])]]).
Proof. reflexivity. Qed.

Example parse_rejects_trailing_comma : json.parse (js "{'a':1,}") = None.
Proof. reflexivity. Qed.

Example parse_rejects_leading_zero : json.parse "01" = None.
Proof. reflexivity. Qed.

Example parse_rejects_empty_input : json.parse EmptyString = None.
Proof. reflexivity. Qed.

Example parse_rejects_two_values : json.parse "1 2" = None.
Proof. reflexivity. Qed.

Example parse_escapes :
  json.parse (js "'a\\b\/c\u0041\n'")
  = Some (json.Str (String "a" (String backslash (String "b" (String "/" (String "c"
            (String "A" (String "010" EmptyString)))))))).
Proof. reflexivity. Qed.

(** A surrogate half that is not part of a pair becomes U+FFFD. *)
Example parse_lone_surrogate :
  json.parse (js "'\ud83dA'")
  = Some (json.Str (String "239" (String "191" (String "189" (String "A" EmptyString))))).
Proof. reflexivity. Qed.

Example parse_surrogate_pair :
  json.parse (js "'\ud83d\ude00'")
  = Some (json.Str (String "240" (String "159" (String "152" (String "128" EmptyString))))).
Proof. reflexivity. Qed.

(** Keys match the names of the fields whatever their case; the last
    member naming a field counts; null stores nothing. *)
Example unmarshal_folds_case :
  json.unmarshal (js "{'HOST':'a','Host':'b','port':7,'port':null}") Credential_zero
  = (set_Credential_Port 7 (set_Credential_Host "b" Credential_zero), None).
Proof. reflexivity. Qed.

(** A value of the wrong kind is reported, and the other members are
    still stored. *)
Example unmarshal_type_mismatch :
  json.unmarshal (js "{'port':'5432','host':'h'}") Credential_zero
  = (set_Credential_Host "h" Credential_zero, Some (UnmarshalTypeError "string" "port")).
Proof. reflexivity. Qed.

Example unmarshal_fraction_into_int :
  json.unmarshal (js "{'port':5432.0}") Credential_zero
  = (Credential_zero, Some (UnmarshalTypeError "number 5432.0" "port")).
Proof. reflexivity. Qed.

Example unmarshal_int_overflow :
  (json.unmarshal (js "{'port':9223372036854775808}") Credential_zero).2
  = Some (UnmarshalTypeError "number 9223372036854775808" "port").
Proof. reflexivity. Qed.

Example unmarshal_top_level_null :
  json.unmarshal "null" dsn_zero = (dsn_zero, None).
Proof. reflexivity. Qed.

Example unmarshal_top_level_array :
  json.unmarshal "[]" dsn_zero = (dsn_zero, Some (UnmarshalTypeError "array" EmptyString)).
Proof. reflexivity. Qed.

(** The example of the specification with the host absent. *)
Example dsn_host_absent :
  result_of (GetPostgresDSNSecret (backend_holding (js "{'dbname':'app'}")) None "db" ∅)
  = ("dbname=app ", None).
Proof. reflexivity. Qed.

(** When the fetch succeeds and the string does not look like a DSN, the
    call of json.Unmarshal is in the record of the run. *)
Example unmarshal_is_recorded :
  events_of (GetPostgresDSNSecret (backend_holding "{}") None "db" ∅)
  = [EvNewSession {| Options_SharedConfigState := SharedConfigEnable |};
     EvGetSecretValue (SessionHandle 0) (current_version "db");
     EvUnmarshal "{}"].
Proof. reflexivity. Qed.

(** ** Facts about decoding into a struct *)

Lemma equalFold_same_fold (n1 n2 k : string) :
  json.equalFold n1 k = true -> json.equalFold n2 k = true ->
  fold_name n1 = fold_name n2.
Proof.
  revert n2 k. induction n1 as [|a n1 IH]; intros [|b n2] [|c k]; cbn [json.equalFold];
    try discriminate; try reflexivity.
  cbn [fold_name].
  destruct (byte_val c <? 128)%N.
  - intros H1 H2. apply andb_prop in H1 as [Ha H1], H2 as [Hb H2].
    apply N.eqb_eq in Ha, Hb. rewrite Ha, Hb. f_equal. eapply IH; eassumption.
  - destruct (json.upper a =? 83)%N eqn:Ea; [|destruct (json.upper a =? 75)%N eqn:Ea'].
    + destruct k as [|k2 k]; [discriminate|]. intros H1.
      apply andb_prop in H1 as [H1 H1r]. apply andb_prop in H1 as [Hc Hk2].
      apply Ascii.eqb_eq in Hc. subst c.
      destruct (json.upper b =? 83)%N eqn:Eb; [|destruct (json.upper b =? 75)%N].
      * intros H2. apply andb_prop in H2 as [_ H2r].
        apply N.eqb_eq in Ea, Eb. rewrite Ea, Eb. f_equal. eapply IH; eassumption.
      * destruct k as [|k3 k]; [discriminate|]. cbn. discriminate.
      * discriminate.
    + destruct k as [|k2 [|k3 k]]; try discriminate. intros H1.
      apply andb_prop in H1 as [H1 H1r]. apply andb_prop in H1 as [H1 Hk3].
      apply andb_prop in H1 as [Hc Hk2]. apply Ascii.eqb_eq in Hc. subst c.
      destruct (json.upper b =? 83)%N eqn:Eb; [|destruct (json.upper b =? 75)%N eqn:Eb'].
      * cbn. discriminate.
      * intros H2. apply andb_prop in H2 as [_ H2r].
        apply N.eqb_eq in Ea', Eb'. rewrite Ea', Eb'. f_equal. eapply IH; eassumption.
      * discriminate.
    + discriminate.
Qed.

Section store_members_facts.

Context {T A : Type}.
Variable fs : list (json.field T).
Variable n0 : string.
Variable g : T -> A.
Variable read : json.value -> option A.

(** The names of the fields differ even when case is ignored, each is
    matched by itself, and [n0] is one of them. *)
Hypothesis Hfold : forall f1 f2, In f1 fs -> In f2 fs ->
  fold_name (json.name f1) = fold_name (json.name f2) -> json.name f1 = json.name f2.
Hypothesis Hself : forall f, In f fs -> json.equalFold (json.name f) (json.name f) = true.
Hypothesis Hn0 : In n0 (map json.name fs).

(** [g] reads what the field [n0] stores; the other fields leave it. *)
Hypothesis Hstore : forall f v x, In f fs ->
  g (json.store_value f v x).1
  = if String.eqb (json.name f) n0 then default (g x) (read v) else g x.

Lemma find_field_Some k f :
  json.find_field fs k = Some f -> In f fs /\ json.equalFold (json.name f) k = true.
Proof.
  unfold json.find_field.
  destruct (find (fun f => String.eqb (json.name f) k) fs) as [f'|] eqn:E.
  - intros [= <-]. apply find_some in E as [Hin Heq].
    apply String.eqb_eq in Heq. subst k. split; [assumption|]. now apply Hself.
  - intros E2. now apply find_some in E2.
Qed.

Lemma find_field_None k f :
  json.find_field fs k = None -> In f fs -> json.equalFold (json.name f) k = false.
Proof.
  unfold json.find_field.
  destruct (find (fun f => String.eqb (json.name f) k) fs); [discriminate|].
  intros E Hin. exact (find_none _ _ E f Hin).
Qed.

Lemma find_field_names k f :
  json.find_field fs k = Some f ->
  json.equalFold n0 k = String.eqb (json.name f) n0.
Proof.
  intros Hf. apply find_field_Some in Hf as [Hin Hk].
  destruct (String.eqb_spec (json.name f) n0) as [<-|Hne]; [assumption|].
  apply not_true_is_false. intros Hk0. apply Hne.
  apply in_map_iff in Hn0 as (f0 & <- & Hin0).
  apply Hfold; try assumption.
  eapply equalFold_same_fold; eassumption.
Qed.

Lemma last_member_In ms v :
  last_member n0 ms = Some v ->
  exists k, In (k, v) ms /\ json.equalFold n0 k = true.
Proof.
  induction ms as [|[k v'] ms IH]; cbn [last_member]; [discriminate|].
  destruct (last_member n0 ms) as [v''|].
  - intros [= <-]. destruct (IH eq_refl) as (k' & Hin & Hk). exists k'. split; [now right|assumption].
  - destruct (json.equalFold n0 k) eqn:Hk; [|discriminate].
    intros [= <-]. exists k. split; [now left|assumption].
Qed.

(** After the members [ms] are stored in order, [g] is what the last
    member naming [n0] holds; without such a member it is unchanged. *)
Lemma store_members_get ms x saved :
  (forall k v, In (k, v) ms -> json.equalFold n0 k = true -> is_Some (read v)) ->
  g (json.store_members fs ms x saved).1
  = match last_member n0 ms with
    | Some v => default (g x) (read v)
    | None => g x
    end.
Proof.
  revert x saved. induction ms as [|[k v] ms IH]; intros x saved Hread;
    cbn [json.store_members last_member]; [reflexivity|].
  assert (Hread' : forall k v, In (k, v) ms -> json.equalFold n0 k = true -> is_Some (read v)).
  { intros k' v' Hin. apply Hread. now right. }
  assert (Hlast : forall x1 : T,
    match last_member n0 ms with
    | Some v0 => default (g x1) (read v0)
    | None => g x1
    end
    = match last_member n0 ms with
      | Some v0 => default (g x) (read v0)
      | None => g x1
      end).
  { intros x1. destruct (last_member n0 ms) as [v0|] eqn:El; [|reflexivity].
    apply last_member_In in El as (k0 & Hin0 & Hk0).
    destruct (Hread' k0 v0 Hin0 Hk0) as [a ->]. reflexivity. }
  destruct (json.find_field fs k) as [f|] eqn:Ef.
  - destruct (json.store_value f v x) as [x1 err] eqn:Hsv.
    rewrite IH by assumption. rewrite Hlast.
    destruct (last_member n0 ms); [reflexivity|].
    rewrite (find_field_names k f Ef).
    pose proof (Hstore f v x (proj1 (find_field_Some k f Ef))) as Hg.
    rewrite Hsv in Hg. cbn [fst] in Hg. rewrite Hg.
    destruct (String.eqb (json.name f) n0) eqn:En; [|reflexivity].
    pose proof (find_field_names k f Ef) as Hk. rewrite En in Hk.
    destruct (Hread k v (or_introl eq_refl) Hk) as [a ->]. reflexivity.
  - rewrite IH by assumption.
    destruct (last_member n0 ms); [reflexivity|].
    apply in_map_iff in Hn0 as (f0 & <- & Hin0).
    now rewrite (find_field_None k f0 Ef Hin0).
Qed.

End store_members_facts.

(** Members whose values fit the fields they name are stored without
    error. *)
Lemma store_members_no_error {T} (fs : list (json.field T)) ms x :
  (forall k v f, In (k, v) ms -> json.find_field fs k = Some f ->
                 forall x, (json.store_value f v x).2 = None) ->
  (json.store_members fs ms x None).2 = None.
Proof.
  revert x. induction ms as [|[k v] ms IH]; intros x Hok; cbn [json.store_members];
    [reflexivity|].
  destruct (json.find_field fs k) as [f|] eqn:Ef.
  - pose proof (Hok k v f (or_introl eq_refl) Ef x) as Hv.
    destruct (json.store_value f v x) as [x1 err]. cbn [snd] in Hv. subst err.
    cbn [json.saveError]. apply IH. intros k' v' f' Hin. apply Hok. now right.
  - apply IH. intros k' v' f' Hin. apply Hok. now right.
Qed.

(** ** Decoding a Credential and a dsn record *)

Lemma Credential_names_fold f1 f2 :
  In f1 Credential_struct -> In f2 Credential_struct ->
  fold_name (json.name f1) = fold_name (json.name f2) -> json.name f1 = json.name f2.
Proof.
  unfold Credential_struct. intros H1 H2. in_list H1; in_list H2;
    cbn [json.name]; intros E; try reflexivity; vm_compute in E; discriminate E.
Qed.

Lemma Credential_names_self f :
  In f Credential_struct -> json.equalFold (json.name f) (json.name f) = true.
Proof. unfold Credential_struct. intros H. in_list H; reflexivity. Qed.

Lemma dsn_names_fold f1 f2 :
  In f1 dsn_struct -> In f2 dsn_struct ->
  fold_name (json.name f1) = fold_name (json.name f2) -> json.name f1 = json.name f2.
Proof.
  unfold dsn_struct. intros H1 H2. in_list H1; in_list H2;
    cbn [json.name]; intros E; try reflexivity; vm_compute in E; discriminate E.
Qed.

Lemma dsn_names_self f :
  In f dsn_struct -> json.equalFold (json.name f) (json.name f) = true.
Proof. unfold dsn_struct. intros H. in_list H; reflexivity. Qed.

Lemma fits_string strs ints ms n :
  forallb (member_fits strs ints) ms = true -> In n strs ->
  forall k v, In (k, v) ms -> json.equalFold n k = true -> is_Some (read_string v).
Proof.
  intros Hall Hn k v Hin Hk.
  rewrite forallb_forall in Hall. apply Hall in Hin.
  unfold member_fits in Hin. apply andb_prop in Hin as [Hs _].
  rewrite forallb_forall in Hs. apply Hs in Hn. cbn [fst snd] in Hn.
  rewrite Hk in Hn. cbn in Hn. destruct (read_string v); [eauto|discriminate].
Qed.

Lemma fits_int strs ints ms n :
  forallb (member_fits strs ints) ms = true -> In n ints ->
  forall k v, In (k, v) ms -> json.equalFold n k = true -> is_Some (read_int v).
Proof.
  intros Hall Hn k v Hin Hk.
  rewrite forallb_forall in Hall. apply Hall in Hin.
  unfold member_fits in Hin. apply andb_prop in Hin as [_ Hi].
  rewrite forallb_forall in Hi. apply Hi in Hn. cbn [fst snd] in Hn.
  rewrite Hk in Hn. cbn in Hn. destruct (read_int v); [eauto|discriminate].
Qed.

(** A payload of the Credential shape decodes, without error, into the
    record it denotes. *)
Lemma decode_Credential ms :
  Credential_shape ms = true ->
  json.decode (json.Object ms) Credential_zero = (Credential_of ms, None).
Proof.
  intros Hshape. unfold json.decode, json.fields.
  pose proof (store_members_get Credential_struct "host" Credential_Host read_string
                Credential_names_fold Credential_names_self) as Hhost.
  pose proof (store_members_get Credential_struct "port" Credential_Port read_int
                Credential_names_fold Credential_names_self) as Hport.
  pose proof (store_members_get Credential_struct "key" Credential_Key read_string
                Credential_names_fold Credential_names_self) as Hkey.
  pose proof (store_members_get Credential_struct "username" Credential_Username read_string
                Credential_names_fold Credential_names_self) as Huser.
  pose proof (store_members_get Credential_struct "password" Credential_Password read_string
                Credential_names_fold Credential_names_self) as Hpass.
  pose proof (store_members_get Credential_struct "dbname" Credential_DBName read_string
                Credential_names_fold Credential_names_self) as Hdb.
  specialize (Hhost ltac:(cbn; tauto) ltac:(store_cases)
                ms Credential_zero None
                (fits_string _ _ ms "host" Hshape ltac:(cbn; tauto))).
  specialize (Hport ltac:(cbn; tauto) ltac:(store_cases)
                ms Credential_zero None
                (fits_int _ _ ms "port" Hshape ltac:(cbn; tauto))).
  specialize (Hkey ltac:(cbn; tauto) ltac:(store_cases)
                ms Credential_zero None
                (fits_string _ _ ms "key" Hshape ltac:(cbn; tauto))).
  specialize (Huser ltac:(cbn; tauto) ltac:(store_cases)
                ms Credential_zero None
                (fits_string _ _ ms "username" Hshape ltac:(cbn; tauto))).
  specialize (Hpass ltac:(cbn; tauto) ltac:(store_cases)
                ms Credential_zero None
                (fits_string _ _ ms "password" Hshape ltac:(cbn; tauto))).
  specialize (Hdb ltac:(cbn; tauto) ltac:(store_cases)
                ms Credential_zero None
                (fits_string _ _ ms "dbname" Hshape ltac:(cbn; tauto))).
  assert (Herr : (json.store_members Credential_struct ms Credential_zero None).2 = None).
  { apply store_members_no_error. intros k v f Hin Hf x.
    apply (find_field_Some Credential_struct Credential_names_self) in Hf as [Hf Hk].
    unfold Credential_struct in Hf. in_list Hf; cbn [json.name] in Hk.
    - destruct (fits_string _ _ ms "host" Hshape ltac:(cbn; tauto) k v Hin Hk) as [a Ha].
      destruct v; try discriminate Ha. reflexivity.
    - destruct (fits_int _ _ ms "port" Hshape ltac:(cbn; tauto) k v Hin Hk) as [a Ha].
      destruct v; try discriminate Ha. cbn in Ha |- *. rewrite Ha. reflexivity.
    - destruct (fits_string _ _ ms "key" Hshape ltac:(cbn; tauto) k v Hin Hk) as [a Ha].
      destruct v; try discriminate Ha. reflexivity.
    - destruct (fits_string _ _ ms "username" Hshape ltac:(cbn; tauto) k v Hin Hk) as [a Ha].
      destruct v; try discriminate Ha. reflexivity.
    - destruct (fits_string _ _ ms "password" Hshape ltac:(cbn; tauto) k v Hin Hk) as [a Ha].
      destruct v; try discriminate Ha. reflexivity.
    - destruct (fits_string _ _ ms "dbname" Hshape ltac:(cbn; tauto) k v Hin Hk) as [a Ha].
      destruct v; try discriminate Ha. reflexivity. }
  destruct (json.store_members Credential_struct ms Credential_zero None) as [c err].
  cbn [fst snd] in *. subst err. f_equal.
  destruct c. cbn in Hhost, Hport, Hkey, Huser, Hpass, Hdb.
  unfold Credential_of, string_member, int_member.
  now rewrite Hhost, Hport, Hkey, Huser, Hpass, Hdb.
Qed.

Lemma last_member_absent n ms :
  (forall k v, In (k, v) ms -> json.equalFold n k = false) ->
  last_member n ms = None.
Proof.
  induction ms as [|[k v] ms IH]; intros Habs; cbn [last_member]; [reflexivity|].
  rewrite IH by (intros k' v' Hin; apply (Habs k' v'); now right).
  now rewrite (Habs k v (or_introl eq_refl)).
Qed.

Lemma last_member_present n ms k v :
  In (k, v) ms -> json.equalFold n k = true ->
  (forall k' v', In (k', v') ms -> json.equalFold n k' = true -> v' = v) ->
  last_member n ms = Some v.
Proof.
  induction ms as [|[k0 v0] ms IH]; intros Hin Hk Hall; [destruct Hin|].
  cbn [last_member].
  destruct (last_member n ms) as [v'|] eqn:El.
  - f_equal.
    pose proof (last_member_In n ms v' El) as Hex.
    destruct Hex as (k' & Hin' & Hk'). apply (Hall k' v'); [now right|assumption].
  - destruct Hin as [[= -> ->]|Hin].
    + now rewrite Hk.
    + assert (E2 : None = Some v).
      { apply IH; [assumption..|]. intros k' v' Hin'. apply Hall. now right. }
      discriminate E2.
Qed.

Lemma empty_member n ms k v :
  dsn_fields_absent_or_empty (json.Object ms) = true ->
  In n dsn_emitted_fields -> In (k, v) ms -> json.equalFold n k = true ->
  v = json.Str EmptyString.
Proof.
  cbn [dsn_fields_absent_or_empty]. intros Hall Hn Hin Hk.
  rewrite forallb_forall in Hall. apply Hall in Hin. cbn [fst snd] in Hin.
  assert (Hex : existsb (fun n => json.equalFold n k) dsn_emitted_fields = true).
  { apply existsb_exists. exists n. split; assumption. }
  rewrite Hex in Hin. cbn [implb] in Hin.
  destruct v; try discriminate Hin. apply String.eqb_eq in Hin. now subst.
Qed.

Lemma dsn_field_empty (g : dsn -> string) n ms :
  In n dsn_emitted_fields ->
  (forall f v x, In f dsn_struct ->
     g (json.store_value f v x).1
     = if String.eqb (json.name f) n then default (g x) (read_string v) else g x) ->
  g dsn_zero = EmptyString ->
  dsn_fields_absent_or_empty (json.Object ms) = true ->
  g (json.store_members dsn_struct ms dsn_zero None).1 = EmptyString.
Proof.
  intros Hn Hstore Hzero Hall.
  rewrite (store_members_get dsn_struct n g read_string dsn_names_fold dsn_names_self).
  - destruct (last_member n ms) as [v|] eqn:El; [|assumption].
    apply last_member_In in El as (k & Hin & Hk).
    now rewrite (empty_member n ms k v Hall Hn Hin Hk).
  - unfold dsn_emitted_fields in Hn. in_list Hn; cbn; tauto.
  - assumption.
  - intros k v Hin Hk. rewrite (empty_member n ms k v Hall Hn Hin Hk). cbn. eauto.
Qed.

(** A payload none of whose members gives one of the five fields a
    non-empty value decodes, if it does, into a record whose DSN string is
    empty. *)
Lemma decode_dsn_empty v d :
  dsn_fields_absent_or_empty v = true ->
  json.decode v dsn_zero = (d, None) ->
  dsn_string_of d = EmptyString.
Proof.
  intros Hall. destruct v; cbn [json.decode]; try discriminate.
  - intros [= <-]. reflexivity.
  - unfold json.fields. intros Hd.
    pose proof (dsn_field_empty dsn_Host "host" members ltac:(cbn; tauto)
                  ltac:(store_cases) eq_refl Hall) as H1.
    pose proof (dsn_field_empty dsn_DBName "dbname" members ltac:(cbn; tauto)
                  ltac:(store_cases) eq_refl Hall) as H2.
    pose proof (dsn_field_empty dsn_Username "username" members ltac:(cbn; tauto)
                  ltac:(store_cases) eq_refl Hall) as H3.
    pose proof (dsn_field_empty dsn_Password "password" members ltac:(cbn; tauto)
                  ltac:(store_cases) eq_refl Hall) as H4.
    pose proof (dsn_field_empty dsn_SearchPath "search_path" members ltac:(cbn; tauto)
                  ltac:(store_cases) eq_refl Hall) as H5.
    rewrite Hd in H1, H2, H3, H4, H5. cbn [fst] in *.
    unfold dsn_string_of. rewrite H1, H2, H3, H4, H5. reflexivity.
Qed.

Lemma fetch_binary aws sess secretName (h : gmap loc object) s out :
  session_used aws sess = inl s ->
  backend_GetSecretValue aws s (current_version secretName) = inl out ->
  SecretString out = None ->
  result_of (GetStringSecret aws sess secretName h)
  = (EmptyString, Some (Fundamental "Secret is not a string")).
Proof.
  unfold GetStringSecret, session_used, current_version. run.
  cbn [client_session secretsmanager.New].
  destruct sess as [s'|].
  - intros [= ->] -> ->. reflexivity.
  - intros -> -> ->. reflexivity.
Qed.

(** ** The claims *)

(** C1. A fetched string that contains both [host=] and [dbname=] is
    returned by GetPostgresDSNSecret unmodified and with a nil error, and
    json.Unmarshal is not called in that run.  This holds for the package
    and for its earlier revision. *)
Theorem C1_dsn_passthrough aws sess secretName (h : gmap loc object) (str : string) :
  contains str "host=" -> contains str "dbname=" ->
  (result_of (GetStringSecret aws sess secretName h) = (str, None) ->
   result_of (GetPostgresDSNSecret aws sess secretName h) = (str, None)
   /\ no_unmarshal (events_of (GetPostgresDSNSecret aws sess secretName h)))
  /\
  (result_of (rev0.GetStringSecret aws sess secretName h) = (str, None) ->
   result_of (rev0.GetPostgresDSNSecret aws sess secretName h) = (str, None)
   /\ no_unmarshal (events_of (rev0.GetPostgresDSNSecret aws sess secretName h))).
Proof.
  intros Hhost Hdb.
  pose proof (looks_like_dsn_true str Hhost Hdb) as Hlooks.
  split; intros Hfetch.
  - rewrite GetPostgresDSNSecret_run, Hfetch.
    unfold format_secret. rewrite Hlooks. unfold result_of, events_of. cbn [fst snd].
    split; [reflexivity|]. rewrite app_nil_r.
    apply (GetStringSecret_heap aws sess secretName h h).
  - rewrite rev0_GetPostgresDSNSecret_run, Hfetch.
    unfold format_secret. rewrite Hlooks. unfold result_of, events_of. cbn [fst snd].
    split; [reflexivity|]. rewrite app_nil_r.
    apply (rev0_GetStringSecret_heap aws sess secretName h h).
Qed.

Lemma C1_dsn_passthrough_witness :
  (result_of (GetPostgresDSNSecret (backend_holding "host=db1 dbname=app") None "db" ∅)
   = ("host=db1 dbname=app", None)
   /\ no_unmarshal
        (events_of (GetPostgresDSNSecret (backend_holding "host=db1 dbname=app") None "db" ∅)))
  /\
  (result_of (rev0.GetPostgresDSNSecret (backend_holding "host=db1 dbname=app") None "db" ∅)
   = ("host=db1 dbname=app", None)
   /\ no_unmarshal
        (events_of (rev0.GetPostgresDSNSecret (backend_holding "host=db1 dbname=app") None "db" ∅))).
Proof.
  destruct (C1_dsn_passthrough (backend_holding "host=db1 dbname=app") None "db" ∅
              "host=db1 dbname=app") as [H1 H2].
  - exists EmptyString, "db1 dbname=app". reflexivity.
  - exists "host=db1 ", "app". reflexivity.
  - split; [apply H1 | apply H2]; reflexivity.
Defined.

(** C2. For a fetched payload that fails the pass-through check and that
    json.Unmarshal decodes into the dsn record [d] without error, the
    result is the concatenation, in the order host, dbname, user, password,
    search_path, of one token [key=value ] per non-empty value of
    [d.Host], [d.DBName], [d.Username], [d.Password], [d.SearchPath]; an
    empty value contributes nothing, and the result is a function of these
    five values only: Engine, Port and DBInstanceIdentifier do not occur. *)
Theorem C2_dsn_tokens aws sess secretName (h : gmap loc object) (str : string) (d : dsn) :
  result_of (GetStringSecret aws sess secretName h) = (str, None) ->
  ~ (contains str "host=" /\ contains str "dbname=") ->
  json.unmarshal str dsn_zero = (d, None) ->
  result_of (GetPostgresDSNSecret aws sess secretName h)
  = (dsn_token "host" (dsn_Host d) +:+ dsn_token "dbname" (dsn_DBName d)
     +:+ dsn_token "user" (dsn_Username d) +:+ dsn_token "password" (dsn_Password d)
     +:+ dsn_token "search_path" (dsn_SearchPath d), None)
  /\ (forall key, dsn_token key EmptyString = EmptyString)
  /\ (forall key value, value <> EmptyString ->
        dsn_token key value = key +:+ "=" +:+ value +:+ " ").
Proof.
  intros Hf Hn Hd. split; [|split].
  - rewrite GetPostgresDSNSecret_run, Hf. unfold format_secret.
    rewrite (looks_like_dsn_false str Hn), Hd. reflexivity.
  - reflexivity.
  - intros key value Hv. unfold dsn_token.
    destruct (String.eqb_spec value EmptyString); [contradiction|reflexivity].
Qed.

Lemma C2_dsn_tokens_witness :
  result_of (GetPostgresDSNSecret (backend_holding sample_payload) None "db" ∅)
  = ("dbname=app ", None).
Proof.
  refine (proj1 (C2_dsn_tokens (backend_holding sample_payload) None "db" ∅
                   sample_payload (json.unmarshal sample_payload dsn_zero).1 _ _ _)).
  - reflexivity.
  - intros [H _]. apply Index_contains in H.
    assert (E : strings.Index sample_payload "host=" = -1) by reflexivity. lia.
  - reflexivity.
Defined.

(** C3. When the fetched payload is exactly the JSON object with host db1,
    dbname app, username u, password p and search_path public,
    GetPostgresDSNSecret returns
    [host=db1 dbname=app user=u password=p search_path=public ]
    (with the trailing space) and a nil error. *)
Theorem C3_dsn_example aws sess secretName (h : gmap loc object) :
  result_of (GetStringSecret aws sess secretName h)
  = (js "{'host':'db1','dbname':'app','username':'u','password':'p','search_path':'public'}",
     None) ->
  result_of (GetPostgresDSNSecret aws sess secretName h)
  = ("host=db1 dbname=app user=u password=p search_path=public ", None).
Proof.
  intros Hf. rewrite GetPostgresDSNSecret_run, Hf. reflexivity.
Qed.

Lemma C3_dsn_example_witness :
  result_of
    (GetPostgresDSNSecret
       (backend_holding
          (js "{'host':'db1','dbname':'app','username':'u','password':'p','search_path':'public'}"))
       None "db" ∅)
  = ("host=db1 dbname=app user=u password=p search_path=public ", None).
Proof.
  apply (C3_dsn_example
           (backend_holding
              (js "{'host':'db1','dbname':'app','username':'u','password':'p','search_path':'public'}"))
           None "db" ∅).
  reflexivity.
Defined.

(** C4. For a fetched payload that is a JSON object of the Credential shape
    (every member whose key names a field holds a value of the type of
    that field), GetCredentialSecret returns a nil error and a pointer to
    the record every field of which is what the payload holds for it: the
    value of the member naming the field, the zero value when no member
    names it.  A key names a field when it equals its name up to case, as
    in encoding/json; when several members name a field the last one
    counts.  No field has to be present. *)
Theorem C4_credential_round_trip aws sess secretName (h : gmap loc object)
    (payload : string) (ms : list (string * json.value)) :
  result_of (GetStringSecret aws sess secretName h) = (payload, None) ->
  json.parse payload = Some (json.Object ms) ->
  Credential_shape ms = true ->
  (exists l,
      result_of (GetCredentialSecret aws sess secretName h) = (Some l, None)
      /\ heap_of (GetCredentialSecret aws sess secretName h) !! l
         = Some (ObjCredential
                   {| Credential_Host := string_member "host" ms;
                      Credential_Port := int_member "port" ms;
                      Credential_Key := string_member "key" ms;
                      Credential_Username := string_member "username" ms;
                      Credential_Password := string_member "password" ms;
                      Credential_DBName := string_member "dbname" ms |}))
  /\ (forall n, (forall k v, In (k, v) ms -> json.equalFold n k = false) ->
        string_member n ms = EmptyString /\ int_member n ms = 0)
  /\ (forall n k s, In n ["host"; "key"; "username"; "password"; "dbname"] ->
        In (k, json.Str s) ms -> json.equalFold n k = true ->
        (forall k' v', In (k', v') ms -> json.equalFold n k' = true -> v' = json.Str s) ->
        string_member n ms = s)
  /\ (forall k lit, In (k, json.Number lit) ms -> json.equalFold "port" k = true ->
        (forall k' v', In (k', v') ms -> json.equalFold "port" k' = true ->
                       v' = json.Number lit) ->
        strconv.ParseInt lit = Some (int_member "port" ms)).
Proof.
  intros Hf Hp Hshape. split; [|split; [|split]].
  - exists (fresh (dom h)). rewrite GetCredentialSecret_run, Hf.
    unfold json.unmarshal. rewrite Hp, (decode_Credential ms Hshape).
    unfold result_of, heap_of. cbn [fst snd errors.Wrapf].
    split; [reflexivity|]. apply lookup_insert_eq.
  - intros n Habs. unfold string_member, int_member.
    now rewrite (last_member_absent n ms Habs).
  - intros n k s _ Hin Hk Hall. unfold string_member.
    now rewrite (last_member_present n ms k (json.Str s) Hin Hk Hall).
  - intros k lit Hin Hk Hall. unfold int_member.
    rewrite (last_member_present "port" ms k (json.Number lit) Hin Hk Hall).
    cbn [read_int].
    destruct (fits_int _ _ ms "port" Hshape ltac:(cbn; tauto) k _ Hin Hk) as [a Ha].
    cbn [read_int] in Ha. rewrite Ha. reflexivity.
Qed.

Lemma C4_credential_round_trip_witness :
  exists l,
    result_of (GetCredentialSecret (backend_holding sample_credential) None "db" ∅)
    = (Some l, None)
    /\ heap_of (GetCredentialSecret (backend_holding sample_credential) None "db" ∅) !! l
       = Some (ObjCredential
                 {| Credential_Host := "db1"; Credential_Port := 5432;
                    Credential_Key := "k1"; Credential_Username := "u";
                    Credential_Password := "p"; Credential_DBName := "app" |}).
Proof.
  exact (proj1 (C4_credential_round_trip (backend_holding sample_credential) None "db" ∅
                  sample_credential
                  [("host", json.Str "db1"); ("port", json.Number "5432");
                   ("key", json.Str "k1"); ("username", json.Str "u");
                   ("password", json.Str "p"); ("dbname", json.Str "app");
                   ("tags", json.Array [json.Str "a"; json.Number "1"])]
                  eq_refl eq_refl eq_refl)).
Defined.

(** C5 fails for the credential decoders: two different strings that are
    not JSON give the same record and the same error, so the fetched string
    is not kept.  It fails for the DSN formatter on a string that is not
    JSON but looks like a DSN: no error is returned. *)
Lemma C5_counterexample :
  (json.parse garbage_after_aa = None /\ json.parse garbage_after_ab = None
   /\ garbage_after_aa <> garbage_after_ab
   /\ returned (GetCredentialSecret (backend_holding garbage_after_aa) None "s" ∅)
      = (Some (ObjCredential Credential_zero), Some (WithMessage SyntaxError decode_msg))
   /\ returned (GetCredentialSecret (backend_holding garbage_after_ab) None "s" ∅)
      = (Some (ObjCredential Credential_zero), Some (WithMessage SyntaxError decode_msg)))
  /\ (json.parse "host=db1 dbname=app" = None
      /\ result_of (GetPostgresDSNSecret (backend_holding "host=db1 dbname=app") None "s" ∅)
         = ("host=db1 dbname=app", None))
  /\ ~ C5_as_stated.
Proof.
  assert (Haa : returned (GetCredentialSecret (backend_holding garbage_after_aa) None "s" ∅)
                = (Some (ObjCredential Credential_zero),
                   Some (WithMessage SyntaxError decode_msg))) by reflexivity.
  assert (Hab : returned (GetCredentialSecret (backend_holding garbage_after_ab) None "s" ∅)
                = (Some (ObjCredential Credential_zero),
                   Some (WithMessage SyntaxError decode_msg))) by reflexivity.
  split; [|split].
  - split; [reflexivity|]. split; [reflexivity|]. split; [|split; assumption].
    intros E. vm_compute in E. discriminate E.
  - split; reflexivity.
  - intros [_ [recover Hr]].
    pose proof (Hr (backend_holding garbage_after_aa) None "s" ∅ garbage_after_aa
                  eq_refl eq_refl) as H1.
    pose proof (Hr (backend_holding garbage_after_ab) None "s" ∅ garbage_after_ab
                  eq_refl eq_refl) as H2.
    rewrite Haa in H1. rewrite Hab in H2. rewrite H1 in H2. discriminate H2.
Qed.

(** C5, amended. For a fetched string that is not JSON, GetCredentialSecret
    and GetAPICredentialSecret return the syntax error wrapped with the
    message that decoding failed, and a pointer to the record still at its
    zero value (the fetched string is not returned); GetPostgresDSNSecret,
    when the string fails the pass-through check, returns the fetched
    string itself alongside the bare syntax error. *)
Theorem C5_malformed_json aws sess secretName (h : gmap loc object) (payload : string) :
  result_of (GetStringSecret aws sess secretName h) = (payload, None) ->
  json.parse payload = None ->
  returned (GetCredentialSecret aws sess secretName h)
  = (Some (ObjCredential Credential_zero),
     Some (WithMessage SyntaxError "Couldn't build credential. Failed to decode JSON."))
  /\ returned (GetAPICredentialSecret aws sess secretName h)
     = (Some (ObjAPICredential APICredential_zero),
        Some (WithMessage SyntaxError "Couldn't build credential. Failed to decode JSON."))
  /\ (~ (contains payload "host=" /\ contains payload "dbname=") ->
      result_of (GetPostgresDSNSecret aws sess secretName h) = (payload, Some SyntaxError)).
Proof.
  intros Hf Hp. unfold returned.
  rewrite GetCredentialSecret_run, GetAPICredentialSecret_run, GetPostgresDSNSecret_run.
  rewrite Hf. unfold json.unmarshal, format_secret. rewrite Hp.
  unfold result_of, heap_of. cbn [fst snd errors.Wrapf].
  rewrite !lookup_insert_eq.
  split; [reflexivity|]. split; [reflexivity|].
  intros Hn. rewrite (looks_like_dsn_false payload Hn).
  unfold json.unmarshal. rewrite Hp. reflexivity.
Qed.

Lemma C5_malformed_json_witness :
  returned (GetCredentialSecret (backend_holding "{") None "s" ∅)
  = (Some (ObjCredential Credential_zero),
     Some (WithMessage SyntaxError "Couldn't build credential. Failed to decode JSON."))
  /\ result_of (GetPostgresDSNSecret (backend_holding "{") None "s" ∅)
     = ("{", Some SyntaxError).
Proof.
  destruct (C5_malformed_json (backend_holding "{") None "s" ∅ "{" eq_refl eq_refl)
    as (H1 & _ & H3).
  split; [exact H1|]. apply H3.
  intros [H _]. apply Index_contains in H.
  assert (E : strings.Index "{" "host=" = -1) by reflexivity. lia.
Defined.

(** C6. When the fetch fails, no decoder calls json.Unmarshal, and each
    returns the error of the fetch wrapped with a message saying that the
    retrieval failed.  That error is never the one of a run whose fetch
    succeeded: a failed decoding carries another message (credentials) or is
    the bare error of json.Unmarshal (DSN). *)
Theorem C6_fetch_failure_short_circuits aws sess secretName (h : gmap loc object)
    (secret : string) (e : error) :
  result_of (GetStringSecret aws sess secretName h) = (secret, Some e) ->
  (no_unmarshal (events_of (GetCredentialSecret aws sess secretName h))
   /\ (result_of (GetCredentialSecret aws sess secretName h)).2
      = Some (WithMessage e "Couldn't build credential. Failed to retrieve secret."))
  /\ (no_unmarshal (events_of (GetAPICredentialSecret aws sess secretName h))
      /\ (result_of (GetAPICredentialSecret aws sess secretName h)).2
         = Some (WithMessage e "Couldn't build credential. Failed to retrieve secret."))
  /\ (no_unmarshal (events_of (GetPostgresDSNSecret aws sess secretName h))
      /\ result_of (GetPostgresDSNSecret aws sess secretName h)
         = (EmptyString, Some (WithMessage e "Couldn't build DSN. Failed to retrieve secret")))
  /\ (forall aws' sess' name' (h' : gmap loc object),
        (result_of (GetStringSecret aws' sess' name' h')).2 = None ->
        (result_of (GetCredentialSecret aws' sess' name' h')).2
          <> (result_of (GetCredentialSecret aws sess secretName h)).2
        /\ (result_of (GetAPICredentialSecret aws' sess' name' h')).2
          <> (result_of (GetAPICredentialSecret aws sess secretName h)).2
        /\ (result_of (GetPostgresDSNSecret aws' sess' name' h')).2
          <> (result_of (GetPostgresDSNSecret aws sess secretName h)).2).
Proof.
  intros Hf.
  pose proof (GetStringSecret_heap aws sess secretName h h) as (_ & _ & _ & Hn).
  rewrite GetCredentialSecret_run, GetAPICredentialSecret_run, GetPostgresDSNSecret_run.
  rewrite Hf. unfold result_of, events_of in *. cbn [fst snd].
  repeat split; try assumption.
  all: rewrite ?GetCredentialSecret_run, ?GetAPICredentialSecret_run,
         ?GetPostgresDSNSecret_run; unfold result_of.
  all: destruct ((GetStringSecret aws' sess' name' h').1.1) as [str [e'|]];
         [discriminate|]; cbn [fst snd].
  - destruct ((json.unmarshal str Credential_zero).2); cbn; [|discriminate].
    intros Heq. inversion Heq.
  - destruct ((json.unmarshal str APICredential_zero).2); cbn; [|discriminate].
    intros Heq. inversion Heq.
  - unfold format_secret.
    destruct ((strings.Index str "host=" >=? 0) && (strings.Index str "dbname=" >=? 0));
      cbn [fst snd]; [discriminate|].
    unfold json.unmarshal.
    destruct (json.parse str) as [v|]; [|discriminate].
    destruct (json.decode v dsn_zero) as [d [e'|]] eqn:Hd; cbn [fst snd]; [|discriminate].
    intros [= ->]. revert Hd. unfold json.decode.
    assert (Hsave : forall ms (x : dsn) saved x' e0 m,
               json.store_members json.fields ms x saved = (x', Some (WithMessage e0 m)) ->
               saved = Some (WithMessage e0 m)).
    { induction ms as [|[k v'] ms IH]; intros x saved x' e0 m; cbn [json.store_members].
      - now intros [= _ ->].
      - destruct (json.find_field json.fields k) as [f|]; [|apply IH].
        destruct (json.store_value f v' x) as [x1 err] eqn:Hsv. intros Hst.
        apply IH in Hst. unfold json.saveError in Hst.
        destruct saved; [assumption|]. subst err.
        unfold json.store_value in Hsv.
        destruct v', (json.store f); try destruct (strconv.ParseInt _); discriminate. }
    destruct v; try discriminate.
    intros Hst. apply Hsave in Hst. discriminate.
Qed.

Lemma C6_fetch_failure_short_circuits_witness :
  no_unmarshal
    (events_of (GetCredentialSecret
                  (backend_failing (AwsError "ResourceNotFoundException" "not found"))
                  None "s" ∅))
  /\ (result_of (GetCredentialSecret
                   (backend_failing (AwsError "ResourceNotFoundException" "not found"))
                   None "s" ∅)).2
     = Some (WithMessage
               (WithMessage (AwsError "ResourceNotFoundException" "not found")
                  "Failed to get secret from AWS Secrets Manager: ResourceNotFoundException")
               "Couldn't build credential. Failed to retrieve secret.").
Proof.
  exact (proj1 (C6_fetch_failure_short_circuits
                  (backend_failing (AwsError "ResourceNotFoundException" "not found"))
                  None "s" ∅ EmptyString
                  (WithMessage (AwsError "ResourceNotFoundException" "not found")
                     "Failed to get secret from AWS Secrets Manager: ResourceNotFoundException")
                  eq_refl)).
Defined.

(** C7. When the backend call succeeds but the secret has no string value,
    GetStringSecret returns the empty string and the error
    [Secret is not a string]; each decoder then returns an error that wraps
    it, and none of them calls json.Unmarshal. *)
Theorem C7_binary_secret aws sess secretName (h : gmap loc object) s out :
  session_used aws sess = inl s ->
  backend_GetSecretValue aws s (current_version secretName) = inl out ->
  SecretString out = None ->
  result_of (GetStringSecret aws sess secretName h)
  = (EmptyString, Some (Fundamental "Secret is not a string"))
  /\ (result_of (GetCredentialSecret aws sess secretName h)).2
     = Some (WithMessage (Fundamental "Secret is not a string") retrieve_msg)
  /\ no_unmarshal (events_of (GetCredentialSecret aws sess secretName h))
  /\ (result_of (GetAPICredentialSecret aws sess secretName h)).2
     = Some (WithMessage (Fundamental "Secret is not a string") retrieve_msg)
  /\ no_unmarshal (events_of (GetAPICredentialSecret aws sess secretName h))
  /\ result_of (GetPostgresDSNSecret aws sess secretName h)
     = (EmptyString, Some (WithMessage (Fundamental "Secret is not a string") dsn_retrieve_msg))
  /\ no_unmarshal (events_of (GetPostgresDSNSecret aws sess secretName h)).
Proof.
  intros Hs Hg Hout.
  pose proof (fetch_binary aws sess secretName h s out Hs Hg Hout) as Hf.
  pose proof (GetStringSecret_heap aws sess secretName h h) as (_ & _ & _ & Hn).
  rewrite GetCredentialSecret_run, GetAPICredentialSecret_run, GetPostgresDSNSecret_run.
  rewrite Hf. unfold result_of, events_of in *. cbn [fst snd].
  repeat split; assumption.
Qed.

Lemma C7_binary_secret_witness :
  result_of (GetStringSecret backend_binary None "s" ∅)
  = (EmptyString, Some (Fundamental "Secret is not a string"))
  /\ no_unmarshal (events_of (GetCredentialSecret backend_binary None "s" ∅))
  /\ no_unmarshal (events_of (GetAPICredentialSecret backend_binary None "s" ∅))
  /\ no_unmarshal (events_of (GetPostgresDSNSecret backend_binary None "s" ∅)).
Proof.
  destruct (C7_binary_secret backend_binary None "s" ∅ (SessionHandle 0)
              {| SecretString := None; SecretBinary := Some "0102" |}
              eq_refl eq_refl eq_refl)
    as (H1 & _ & H2 & _ & H3 & _ & H4).
  repeat split; assumption.
Defined.

(** C8. GetCredentialSecret and GetAPICredentialSecret return, on every
    path, a non-nil pointer to a record of their type at a location that
    was not in use before the call; the rest of the heap is unchanged. *)
Theorem C8_fresh_record_returned aws sess secretName (h : gmap loc object) :
  (exists l c,
      (result_of (GetCredentialSecret aws sess secretName h)).1 = Some l
      /\ h !! l = None
      /\ heap_of (GetCredentialSecret aws sess secretName h) !! l = Some (ObjCredential c)
      /\ forall l', l' <> l ->
           heap_of (GetCredentialSecret aws sess secretName h) !! l' = h !! l')
  /\
  (exists l c,
      (result_of (GetAPICredentialSecret aws sess secretName h)).1 = Some l
      /\ h !! l = None
      /\ heap_of (GetAPICredentialSecret aws sess secretName h) !! l = Some (ObjAPICredential c)
      /\ forall l', l' <> l ->
           heap_of (GetAPICredentialSecret aws sess secretName h) !! l' = h !! l').
Proof.
  assert (Hfresh : h !! fresh (dom h) = None).
  { apply not_elem_of_dom. apply is_fresh. }
  split; exists (fresh (dom h)).
  - rewrite GetCredentialSecret_run.
    destruct (result_of (GetStringSecret aws sess secretName h)) as [secret [e|]];
      unfold result_of, heap_of; cbn [fst snd]; eexists;
      (split; [reflexivity|]); (split; [exact Hfresh|]);
      (split; [apply lookup_insert_eq|]);
      intros l' Hne; apply lookup_insert_ne; congruence.
  - rewrite GetAPICredentialSecret_run.
    destruct (result_of (GetStringSecret aws sess secretName h)) as [secret [e|]];
      unfold result_of, heap_of; cbn [fst snd]; eexists;
      (split; [reflexivity|]); (split; [exact Hfresh|]);
      (split; [apply lookup_insert_eq|]);
      intros l' Hne; apply lookup_insert_ne; congruence.
Qed.

(** C9. Whenever GetStringSecret returns a non-nil error, the secret it
    returns is the empty string; and the error is the one of the failed
    construction of the default session, the wrapped error of the backend
    (with its code when it is an awserr.Error, without otherwise), or the
    error for a secret that is not a string. *)
Theorem C9_error_means_empty_secret aws sess secretName (h : gmap loc object)
    (secret : string) (e : error) :
  result_of (GetStringSecret aws sess secretName h) = (secret, Some e) ->
  secret = EmptyString
  /\ (session_used aws sess = inr e
      \/ (exists s e0 code,
             session_used aws sess = inl s
             /\ backend_GetSecretValue aws s (current_version secretName) = inr e0
             /\ as_awserr e0 = Some code
             /\ e = WithMessage e0 ("Failed to get secret from AWS Secrets Manager: " +:+ code))
      \/ (exists s e0,
             session_used aws sess = inl s
             /\ backend_GetSecretValue aws s (current_version secretName) = inr e0
             /\ as_awserr e0 = None
             /\ e = WithMessage e0
                      "Fasiled to get secret from AWS Secrets Manager: Unknown error description")
      \/ (exists s out,
             session_used aws sess = inl s
             /\ backend_GetSecretValue aws s (current_version secretName) = inl out
             /\ SecretString out = None
             /\ e = Fundamental "Secret is not a string")).
Proof.
  unfold GetStringSecret, session_used, current_version. run.
  cbn [client_session secretsmanager.New].
  destruct sess as [s|]; [|destruct (backend_NewSessionWithOptions aws _) as [s|e0] eqn:Hs].
  1,2: destruct (backend_GetSecretValue aws s _) as [out|e1] eqn:Hg;
       [destruct (SecretString out) eqn:Hout | destruct (as_awserr e1) as [code|] eqn:Ha];
       cbn; intros [= <- <-]; (split; [reflexivity|]).
  - right. right. right. exists s, out. auto.
  - right. left. exists s, e1, code. auto.
  - right. right. left. exists s, e1. auto.
  - right. right. right. exists s, out. auto.
  - right. left. exists s, e1, code. auto.
  - right. right. left. exists s, e1. auto.
  - cbn. intros [= <- <-]. auto.
Qed.

Lemma C9_error_means_empty_secret_witness :
  exists secret e,
    result_of (GetStringSecret backend_binary None "s" ∅) = (secret, Some e)
    /\ secret = EmptyString.
Proof.
  exists EmptyString, (Fundamental "Secret is not a string").
  split; [reflexivity|].
  exact (proj1 (C9_error_means_empty_secret backend_binary None "s" ∅
                  EmptyString (Fundamental "Secret is not a string") eq_refl)).
Defined.

(** C10 fails on a payload that holds only a port, written as a string:
    the payload is returned with the error of the decoder.  It fails too on
    a payload that holds only an engine whose text contains [host=] and
    [dbname=]: the payload is returned as it is. *)
Lemma C10_counterexample :
  (json.parse port_as_string = Some (json.Object [("port", json.Str "5432")])
   /\ dsn_fields_absent_or_empty (json.Object [("port", json.Str "5432")]) = true
   /\ result_of (GetPostgresDSNSecret (backend_holding port_as_string) None "db" ∅)
      = (port_as_string, Some (UnmarshalTypeError "string" "port")))
  /\ (json.parse engine_like_dsn
      = Some (json.Object [("engine", json.Str "host=dbname=")])
      /\ dsn_fields_absent_or_empty (json.Object [("engine", json.Str "host=dbname=")]) = true
      /\ result_of (GetPostgresDSNSecret (backend_holding engine_like_dsn) None "db" ∅)
         = (engine_like_dsn, None))
  /\ ~ C10_as_stated.
Proof.
  split; [|split].
  - repeat split; reflexivity.
  - repeat split; reflexivity.
  - intros Hc.
    specialize (Hc (backend_holding port_as_string) None "db" ∅ port_as_string
                  (json.Object [("port", json.Str "5432")]) eq_refl eq_refl eq_refl).
    vm_compute in Hc. discriminate Hc.
Qed.

(** C10, amended. For a fetched payload that fails the pass-through check,
    that json.Unmarshal decodes into the dsn record without error, and in
    which every member naming host, dbname, username, password or
    search_path holds the empty string (or there is no such member),
    GetPostgresDSNSecret returns the empty string and a nil error. *)
Theorem C10_empty_dsn aws sess secretName (h : gmap loc object) (payload : string)
    (v : json.value) :
  result_of (GetStringSecret aws sess secretName h) = (payload, None) ->
  ~ (contains payload "host=" /\ contains payload "dbname=") ->
  json.parse payload = Some v ->
  (json.unmarshal payload dsn_zero).2 = None ->
  dsn_fields_absent_or_empty v = true ->
  result_of (GetPostgresDSNSecret aws sess secretName h) = (EmptyString, None).
Proof.
  intros Hf Hn Hp Herr Hall.
  rewrite GetPostgresDSNSecret_run, Hf. unfold format_secret.
  rewrite (looks_like_dsn_false payload Hn).
  unfold json.unmarshal in *. rewrite Hp in *.
  destruct (json.decode v dsn_zero) as [d err] eqn:Hd. cbn [snd] in Herr. subst err.
  now rewrite (decode_dsn_empty v d Hall Hd).
Qed.

Lemma C10_empty_dsn_witness :
  result_of (GetPostgresDSNSecret (backend_holding only_unused_fields) None "db" ∅)
  = (EmptyString, None).
Proof.
  refine (C10_empty_dsn (backend_holding only_unused_fields) None "db" ∅
            only_unused_fields
            (json.Object [("engine", json.Str "postgres"); ("port", json.Number "5432");
                          ("dbInstanceIdentifier", json.Str "i1");
                          ("host", json.Str EmptyString)])
            eq_refl _ eq_refl eq_refl eq_refl).
  intros [H _]. apply Index_contains in H.
  assert (E : strings.Index only_unused_fields "host=" = -1) by reflexivity. lia.
Defined.

(** * Beyond the claims *)

(** ** The fetcher *)

(** X1. GetStringSecret builds the default session (with the shared
    configuration enabled) only when no session is passed in, then makes
    exactly one GetSecretValue request, for the named secret at the stage
    AWSCURRENT, with the session it has; when the default session cannot be
    built no request is made.  It makes no other call and leaves the heap
    as it is. *)
Theorem X1_fetch_calls aws sess secretName (h : gmap loc object) :
  events_of (GetStringSecret aws sess secretName h)
  = match sess with
    | Some _ => []
    | None => [EvNewSession {| Options_SharedConfigState := SharedConfigEnable |}]
    end
    ++ match session_used aws sess with
       | inl s => [EvGetSecretValue s {| SecretId := secretName;
                                          VersionStage := "AWSCURRENT" |}]
       | inr _ => []
       end
  /\ heap_of (GetStringSecret aws sess secretName h) = h.
Proof.
  unfold GetStringSecret, session_used. run. cbn [client_session secretsmanager.New].
  destruct sess as [s|]; [|destruct (backend_NewSessionWithOptions aws _) as [s|e0]].
  1,2: destruct (backend_GetSecretValue aws s _) as [out|e1];
       [destruct (SecretString out) | destruct (as_awserr e1)]; cbn; auto.
  cbn. auto.
Qed.

(** X2. GetStringSecret returns a string with a nil error exactly when it
    has a session, the request succeeds and the secret has a string value;
    the string returned is then that value, unchanged. *)
Theorem X2_fetch_success aws sess secretName (h : gmap loc object) (secret : string) :
  result_of (GetStringSecret aws sess secretName h) = (secret, None)
  <-> exists s out,
        session_used aws sess = inl s
        /\ backend_GetSecretValue aws s (current_version secretName) = inl out
        /\ SecretString out = Some secret.
Proof.
  unfold GetStringSecret, session_used, current_version. run.
  cbn [client_session secretsmanager.New].
  split.
  - destruct sess as [s|]; [|destruct (backend_NewSessionWithOptions aws _) as [s|e0] eqn:Hs].
    1,2: destruct (backend_GetSecretValue aws s _) as [out|e1] eqn:Hg;
         [destruct (SecretString out) eqn:Hout | destruct (as_awserr e1)];
         cbn; intros [= <-] || discriminate; exists s, out; auto.
    cbn. discriminate.
  - intros (s & out & Hs & Hg & Hout).
    destruct sess as [s'|].
    + injection Hs as ->. rewrite Hg, Hout. reflexivity.
    + rewrite Hs, Hg, Hout. reflexivity.
Qed.

(** X4. When the fetch fails, the pointer GetCredentialSecret and
    GetAPICredentialSecret return leads to the record at its zero value,
    and the error is that of the fetch, wrapped. *)
Theorem X4_zero_record_on_fetch_failure aws sess secretName (h : gmap loc object)
    (secret : string) (e : error) :
  result_of (GetStringSecret aws sess secretName h) = (secret, Some e) ->
  returned (GetCredentialSecret aws sess secretName h)
  = (Some (ObjCredential Credential_zero),
     Some (WithMessage e "Couldn't build credential. Failed to retrieve secret."))
  /\ returned (GetAPICredentialSecret aws sess secretName h)
     = (Some (ObjAPICredential APICredential_zero),
        Some (WithMessage e "Couldn't build credential. Failed to retrieve secret.")).
Proof.
  intros Hf. unfold returned.
  rewrite GetCredentialSecret_run, GetAPICredentialSecret_run, Hf.
  unfold result_of, heap_of. cbn [fst snd]. rewrite !lookup_insert_eq.
  split; reflexivity.
Qed.

Lemma X4_zero_record_on_fetch_failure_witness :
  returned (GetCredentialSecret (backend_failing (OtherError "timeout")) None "s" ∅)
  = (Some (ObjCredential Credential_zero),
     Some (WithMessage
             (WithMessage (OtherError "timeout")
                "Fasiled to get secret from AWS Secrets Manager: Unknown error description")
             "Couldn't build credential. Failed to retrieve secret.")).
Proof.
  exact (proj1 (X4_zero_record_on_fetch_failure (backend_failing (OtherError "timeout"))
                  None "s" ∅ EmptyString
                  (WithMessage (OtherError "timeout")
                     "Fasiled to get secret from AWS Secrets Manager: Unknown error description")
                  eq_refl)).
Defined.

Lemma fetch_has_no_unmarshal aws sess secretName (h : gmap loc object) :
  List.filter is_unmarshal (events_of (GetStringSecret aws sess secretName h)) = [].
Proof.
  pose proof (GetStringSecret_heap aws sess secretName h h) as (_ & _ & _ & Hn).
  unfold no_unmarshal in Hn.
  induction (events_of (GetStringSecret aws sess secretName h)) as [|ev t IH];
    [reflexivity|].
  cbn [forallb] in Hn. apply andb_prop in Hn as [Hev Ht].
  cbn [List.filter]. destruct (is_unmarshal ev); [discriminate Hev|]. now apply IH.
Qed.

(** X5. When the fetch succeeds, GetCredentialSecret and
    GetAPICredentialSecret call json.Unmarshal exactly once, on the fetched
    string as it is; so does GetPostgresDSNSecret unless the string
    contains both [host=] and [dbname=], in which case it does not call it.
    The calls of the fetch come first. *)
Theorem X5_unmarshal_once aws sess secretName (h : gmap loc object) (secret : string) :
  result_of (GetStringSecret aws sess secretName h) = (secret, None) ->
  events_of (GetCredentialSecret aws sess secretName h)
  = events_of (GetStringSecret aws sess secretName h) ++ [EvUnmarshal secret]
  /\ events_of (GetAPICredentialSecret aws sess secretName h)
     = events_of (GetStringSecret aws sess secretName h) ++ [EvUnmarshal secret]
  /\ (~ (contains secret "host=" /\ contains secret "dbname=") ->
      events_of (GetPostgresDSNSecret aws sess secretName h)
      = events_of (GetStringSecret aws sess secretName h) ++ [EvUnmarshal secret])
  /\ (contains secret "host=" /\ contains secret "dbname=" ->
      events_of (GetPostgresDSNSecret aws sess secretName h)
      = events_of (GetStringSecret aws sess secretName h))
  /\ List.filter is_unmarshal (events_of (GetCredentialSecret aws sess secretName h))
     = [EvUnmarshal secret].
Proof.
  intros Hf.
  rewrite GetCredentialSecret_run, GetAPICredentialSecret_run, GetPostgresDSNSecret_run, Hf.
  unfold events_of at 1 2 3 4 5 6. cbn [fst snd].
  split; [reflexivity|]. split; [reflexivity|]. split; [|split].
  - intros Hn. unfold format_secret. rewrite (looks_like_dsn_false secret Hn).
    destruct (json.unmarshal secret dsn_zero) as [d [e|]]; reflexivity.
  - intros [H1 H2]. unfold format_secret. rewrite (looks_like_dsn_true secret H1 H2).
    cbn [snd]. now rewrite app_nil_r.
  - unfold events_of at 1. cbn [snd]. rewrite List.filter_app.
    fold (events_of (GetStringSecret aws sess secretName h)).
    rewrite fetch_has_no_unmarshal. reflexivity.
Qed.

Lemma X5_unmarshal_once_witness :
  events_of (GetCredentialSecret (backend_holding "{}") None "s" ∅)
  = events_of (GetStringSecret (backend_holding "{}") None "s" ∅) ++ [EvUnmarshal "{}"].
Proof.
  exact (proj1 (X5_unmarshal_once (backend_holding "{}") None "s" ∅ "{}" eq_refl)).
Defined.

(** ** The API credential decoder *)

Lemma APICredential_names_fold f1 f2 :
  In f1 APICredential_struct -> In f2 APICredential_struct ->
  fold_name (json.name f1) = fold_name (json.name f2) -> json.name f1 = json.name f2.
Proof.
  unfold APICredential_struct. intros H1 H2. in_list H1; in_list H2;
    cbn [json.name]; intros E; try reflexivity; vm_compute in E; discriminate E.
Qed.

Lemma APICredential_names_self f :
  In f APICredential_struct -> json.equalFold (json.name f) (json.name f) = true.
Proof. unfold APICredential_struct. intros H. in_list H; reflexivity. Qed.

Lemma decode_APICredential ms :
  APICredential_shape ms = true ->
  json.decode (json.Object ms) APICredential_zero
  = ({| APICredential_BaseURL := string_member "baseURL" ms;
        APICredential_APIKey := string_member "key" ms;
        APICredential_APISecret := string_member "secret" ms |}, None).
Proof.
  intros Hshape. unfold json.decode, json.fields.
  pose proof (store_members_get APICredential_struct "baseURL" APICredential_BaseURL
                read_string APICredential_names_fold APICredential_names_self
                ltac:(cbn; tauto) ltac:(store_cases) ms APICredential_zero None
                (fits_string _ _ ms "baseURL" Hshape ltac:(cbn; tauto))) as Hurl.
  pose proof (store_members_get APICredential_struct "key" APICredential_APIKey
                read_string APICredential_names_fold APICredential_names_self
                ltac:(cbn; tauto) ltac:(store_cases) ms APICredential_zero None
                (fits_string _ _ ms "key" Hshape ltac:(cbn; tauto))) as Hkey.
  pose proof (store_members_get APICredential_struct "secret" APICredential_APISecret
                read_string APICredential_names_fold APICredential_names_self
                ltac:(cbn; tauto) ltac:(store_cases) ms APICredential_zero None
                (fits_string _ _ ms "secret" Hshape ltac:(cbn; tauto))) as Hsec.
  assert (Herr : (json.store_members APICredential_struct ms APICredential_zero None).2 = None).
  { apply store_members_no_error. intros k v f Hin Hf x.
    apply (find_field_Some APICredential_struct APICredential_names_self) in Hf as [Hf Hk].
    unfold APICredential_struct in Hf. in_list Hf; cbn [json.name] in Hk.
    - destruct (fits_string _ _ ms "baseURL" Hshape ltac:(cbn; tauto) k v Hin Hk) as [a Ha].
      destruct v; try discriminate Ha. reflexivity.
    - destruct (fits_string _ _ ms "key" Hshape ltac:(cbn; tauto) k v Hin Hk) as [a Ha].
      destruct v; try discriminate Ha. reflexivity.
    - destruct (fits_string _ _ ms "secret" Hshape ltac:(cbn; tauto) k v Hin Hk) as [a Ha].
      destruct v; try discriminate Ha. reflexivity. }
  destruct (json.store_members APICredential_struct ms APICredential_zero None) as [c err].
  cbn [fst snd] in *. subst err. f_equal.
  destruct c. cbn in Hurl, Hkey, Hsec. unfold string_member.
  now rewrite Hurl, Hkey, Hsec.
Qed.

(** X3. For a fetched payload that is a JSON object in which every member
    naming baseURL, key or secret (up to case) holds a string,
    GetAPICredentialSecret returns a nil error and a pointer to the record
    whose BaseURL, APIKey and APISecret are what the payload holds for
    these names: the value of the last member naming the field, the empty
    string when there is none.  Other members are ignored. *)
Theorem X3_api_credential_round_trip aws sess secretName (h : gmap loc object)
    (payload : string) (ms : list (string * json.value)) :
  result_of (GetStringSecret aws sess secretName h) = (payload, None) ->
  json.parse payload = Some (json.Object ms) ->
  APICredential_shape ms = true ->
  returned (GetAPICredentialSecret aws sess secretName h)
  = (Some (ObjAPICredential
             {| APICredential_BaseURL := string_member "baseURL" ms;
                APICredential_APIKey := string_member "key" ms;
                APICredential_APISecret := string_member "secret" ms |}), None).
Proof.
  intros Hf Hp Hshape. unfold returned.
  rewrite GetAPICredentialSecret_run, Hf.
  unfold json.unmarshal. rewrite Hp, (decode_APICredential ms Hshape).
  unfold result_of, heap_of. cbn [fst snd errors.Wrapf].
  now rewrite lookup_insert_eq.
Qed.

Lemma X3_api_credential_round_trip_witness :
  returned (GetAPICredentialSecret (backend_holding sample_api_credential) None "api" ∅)
  = (Some (ObjAPICredential
             {| APICredential_BaseURL := "https://api.example.com";
                APICredential_APIKey := "k1";
                APICredential_APISecret := "s1" |}), None).
Proof.
  exact (X3_api_credential_round_trip (backend_holding sample_api_credential) None "api" ∅
           sample_api_credential
           [("baseURL", json.Str "https://api.example.com"); ("key", json.Str "k1");
            ("secret", json.Str "s1"); ("note", json.Null)]
           eq_refl eq_refl eq_refl).
Defined.

(** ** The DSN formatter *)

Lemma append_is_empty (a b : string) :
  a +:+ b = EmptyString <-> a = EmptyString /\ b = EmptyString.
Proof.
  split.
  - destruct a; [intros H; split; [reflexivity|exact H]|].
    rewrite append_cons. discriminate.
  - intros [-> ->]. reflexivity.
Qed.

Lemma dsn_token_is_empty (key value : string) :
  dsn_token key value = EmptyString <-> value = EmptyString.
Proof.
  unfold dsn_token. destruct (String.eqb_spec value EmptyString) as [->|Hne].
  - tauto.
  - split; [|contradiction]. intros H.
    apply append_is_empty in H as [_ H]. apply append_is_empty in H as [H _].
    discriminate H.
Qed.

Lemma dsn_token_nonempty (key value : string) :
  value <> EmptyString -> dsn_token key value = key +:+ "=" +:+ value +:+ " ".
Proof.
  intros Hv. unfold dsn_token.
  destruct (String.eqb_spec value EmptyString); [contradiction|reflexivity].
Qed.

(** X12. The string GetPostgresDSNSecret builds from a decoded payload is
    empty exactly when Host, DBName, Username, Password and SearchPath of
    the decoded record are all empty. *)
Theorem X12_dsn_empty_iff aws sess secretName (h : gmap loc object) (str : string) (d : dsn) :
  result_of (GetStringSecret aws sess secretName h) = (str, None) ->
  ~ (contains str "host=" /\ contains str "dbname=") ->
  json.unmarshal str dsn_zero = (d, None) ->
  ((result_of (GetPostgresDSNSecret aws sess secretName h)).1 = EmptyString
   <-> dsn_Host d = EmptyString /\ dsn_DBName d = EmptyString
       /\ dsn_Username d = EmptyString /\ dsn_Password d = EmptyString
       /\ dsn_SearchPath d = EmptyString).
Proof.
  intros Hf Hn Hd.
  rewrite GetPostgresDSNSecret_run, Hf. unfold format_secret.
  rewrite (looks_like_dsn_false str Hn), Hd. unfold result_of. cbn [fst].
  unfold dsn_string_of, dsn_string.
  rewrite !append_is_empty, !dsn_token_is_empty. tauto.
Qed.

Lemma X12_dsn_empty_iff_witness :
  (result_of (GetPostgresDSNSecret (backend_holding only_unused_fields) None "db" ∅)).1
  = EmptyString
  <-> dsn_Host (json.unmarshal only_unused_fields dsn_zero).1 = EmptyString
      /\ dsn_DBName (json.unmarshal only_unused_fields dsn_zero).1 = EmptyString
      /\ dsn_Username (json.unmarshal only_unused_fields dsn_zero).1 = EmptyString
      /\ dsn_Password (json.unmarshal only_unused_fields dsn_zero).1 = EmptyString
      /\ dsn_SearchPath (json.unmarshal only_unused_fields dsn_zero).1 = EmptyString.
Proof.
  refine (X12_dsn_empty_iff (backend_holding only_unused_fields) None "db" ∅
            only_unused_fields (json.unmarshal only_unused_fields dsn_zero).1
            eq_refl _ eq_refl).
  intros [H _]. apply Index_contains in H.
  assert (E : strings.Index only_unused_fields "host=" = -1) by reflexivity. lia.
Defined.

Lemma dsn_string_has_host (d : dsn) :
  dsn_Host d <> EmptyString -> contains (dsn_string_of d) "host=".
Proof.
  intros Hh. unfold dsn_string_of, dsn_string.
  rewrite (dsn_token_nonempty "host" _ Hh).
  exists EmptyString. eexists.
  rewrite append_empty_l, !append_assoc.
  change ("host=" +:+ ?x) with ("host" +:+ "=" +:+ x). reflexivity.
Qed.

Lemma dsn_string_has_dbname (d : dsn) :
  dsn_DBName d <> EmptyString -> contains (dsn_string_of d) "dbname=".
Proof.
  intros Hh. unfold dsn_string_of, dsn_string.
  rewrite (dsn_token_nonempty "dbname" _ Hh).
  exists (dsn_token "host" (dsn_Host d)). eexists.
  rewrite !append_assoc.
  change ("dbname=" +:+ ?x) with ("dbname" +:+ "=" +:+ x). reflexivity.
Qed.

(** X6. GetPostgresDSNSecret is idempotent on what it builds: when the
    decoded record has a host and a database name, the string built
    contains [host=] and [dbname=], so a secret that holds this string is
    returned as it is, with a nil error and without a call of
    json.Unmarshal. *)
Theorem X6_dsn_idempotent aws sess secretName (h : gmap loc object) (str : string) (d : dsn)
    aws' sess' secretName' (h' : gmap loc object) :
  result_of (GetStringSecret aws sess secretName h) = (str, None) ->
  ~ (contains str "host=" /\ contains str "dbname=") ->
  json.unmarshal str dsn_zero = (d, None) ->
  dsn_Host d <> EmptyString -> dsn_DBName d <> EmptyString ->
  result_of (GetStringSecret aws' sess' secretName' h')
  = ((result_of (GetPostgresDSNSecret aws sess secretName h)).1, None) ->
  result_of (GetPostgresDSNSecret aws' sess' secretName' h')
  = result_of (GetPostgresDSNSecret aws sess secretName h)
  /\ no_unmarshal (events_of (GetPostgresDSNSecret aws' sess' secretName' h')).
Proof.
  intros Hf Hn Hd Hhost Hdb.
  assert (Hr : result_of (GetPostgresDSNSecret aws sess secretName h)
               = (dsn_string_of d, None)).
  { rewrite GetPostgresDSNSecret_run, Hf. unfold format_secret.
    now rewrite (looks_like_dsn_false str Hn), Hd. }
  rewrite Hr. cbn [fst]. intros Hf'.
  rewrite GetPostgresDSNSecret_run, Hf'. unfold format_secret.
  rewrite (looks_like_dsn_true _ (dsn_string_has_host d Hhost) (dsn_string_has_dbname d Hdb)).
  unfold result_of, events_of. cbn [fst snd]. split; [reflexivity|].
  rewrite app_nil_r. apply (GetStringSecret_heap aws' sess' secretName' h' h').
Qed.

Lemma X6_dsn_idempotent_witness :
  result_of (GetPostgresDSNSecret (backend_holding "host=db1 dbname=app ") None "db" ∅)
  = result_of (GetPostgresDSNSecret (backend_holding ordered_payload) None "db" ∅).
Proof.
  refine (proj1 (X6_dsn_idempotent (backend_holding ordered_payload) None "db" ∅
                   ordered_payload (json.unmarshal ordered_payload dsn_zero).1
                   (backend_holding "host=db1 dbname=app ") None "db" ∅
                   eq_refl _ eq_refl _ _ eq_refl)).
  - intros [H _]. apply Index_contains in H.
    assert (E : strings.Index ordered_payload "host=" = -1) by reflexivity. lia.
  - vm_compute. discriminate.
  - vm_compute. discriminate.
Defined.

(** ** The two revisions *)

(** X7. With the same session to work with, the earlier revision and the
    later one return the same: when a session is passed in, their runs of
    GetStringSecret and of GetPostgresDSNSecret are equal, calls included;
    when none is passed in and the default session is built and is the one
    [session.New] gives, their results are equal. *)
Theorem X7_revisions_agree aws sess secretName (h : gmap loc object) :
  session_used aws sess = inl (default (backend_New aws) sess) ->
  result_of (rev0.GetStringSecret aws sess secretName h)
  = result_of (GetStringSecret aws sess secretName h)
  /\ result_of (rev0.GetPostgresDSNSecret aws sess secretName h)
     = result_of (GetPostgresDSNSecret aws sess secretName h)
  /\ (sess <> None ->
      rev0.GetStringSecret aws sess secretName h = GetStringSecret aws sess secretName h
      /\ rev0.GetPostgresDSNSecret aws sess secretName h
         = GetPostgresDSNSecret aws sess secretName h).
Proof.
  intros Hs.
  assert (Hres : result_of (rev0.GetStringSecret aws sess secretName h)
                 = result_of (GetStringSecret aws sess secretName h)).
  { revert Hs. unfold rev0.GetStringSecret, GetStringSecret, session_used. run.
    destruct sess as [s|]; cbn [default]; [reflexivity|].
    intros ->. cbn [client_session secretsmanager.New].
    destruct (backend_GetSecretValue aws (backend_New aws) _) as [out|e];
      [destruct (SecretString out)|destruct (as_awserr e)]; reflexivity. }
  assert (Hall : sess <> None ->
                 rev0.GetStringSecret aws sess secretName h
                 = GetStringSecret aws sess secretName h).
  { destruct sess as [s|]; [intros _|congruence].
    unfold rev0.GetStringSecret, GetStringSecret. run. reflexivity. }
  split; [exact Hres|]. split.
  - rewrite rev0_GetPostgresDSNSecret_run, GetPostgresDSNSecret_run, Hres.
    destruct (result_of (GetStringSecret aws sess secretName h)) as [str [e|]]; reflexivity.
  - intros Hne. split; [now apply Hall|].
    rewrite rev0_GetPostgresDSNSecret_run, GetPostgresDSNSecret_run, (Hall Hne). reflexivity.
Qed.

Lemma X7_revisions_agree_witness :
  result_of (rev0.GetPostgresDSNSecret (backend_holding ordered_payload) None "db" ∅)
  = result_of (GetPostgresDSNSecret (backend_holding ordered_payload) None "db" ∅).
Proof.
  exact (proj1 (proj2 (X7_revisions_agree (backend_holding ordered_payload) None "db" ∅
                         eq_refl))).
Defined.

(** X8. The earlier revision of GetStringSecret always makes exactly one
    GetSecretValue request (after [session.New] when no session is passed
    in), and whenever it returns a non-nil error the secret it returns is
    the empty string. *)
Theorem X8_rev0_fetcher aws sess secretName (h : gmap loc object) :
  events_of (rev0.GetStringSecret aws sess secretName h)
  = match sess with Some _ => [] | None => [EvNew] end
    ++ [EvGetSecretValue (default (backend_New aws) sess)
          {| SecretId := secretName; VersionStage := "AWSCURRENT" |}]
  /\ heap_of (rev0.GetStringSecret aws sess secretName h) = h
  /\ forall secret e,
       result_of (rev0.GetStringSecret aws sess secretName h) = (secret, Some e) ->
       secret = EmptyString.
Proof.
  unfold rev0.GetStringSecret. run. cbn [client_session secretsmanager.New].
  destruct sess as [s|]; cbn [default];
    (destruct (backend_GetSecretValue aws _ _) as [out|e1];
     [destruct (SecretString out) | destruct (as_awserr e1)]); cbn;
    (split; [reflexivity|]); (split; [reflexivity|]);
    intros secret e0 Heq; congruence.
Qed.

(** ** The order of the members of the payload *)

Lemma store_value_error {T} (f : json.field T) (v : json.value) (x : T) :
  (json.store_value f v x).2 = value_error f v.
Proof.
  unfold json.store_value, value_error.
  destruct v, (json.store f); try reflexivity.
  destruct (strconv.ParseInt lit); reflexivity.
Qed.

(** Decoding reports no error exactly when every member is stored without
    error. *)
Lemma store_members_clean {T} (fs : list (json.field T)) ms (x : T) saved :
  (json.store_members fs ms x saved).2 = None
  <-> saved = None /\ forallb (member_clean fs) ms = true.
Proof.
  revert x saved. induction ms as [|[k v] ms IH]; intros x saved;
    cbn [json.store_members forallb].
  - cbn [snd]. tauto.
  - unfold member_clean at 1. cbn [fst snd].
    destruct (json.find_field fs k) as [f|].
    + pose proof (store_value_error f v x) as Hv.
      destruct (json.store_value f v x) as [x1 err]. cbn [snd] in Hv. subst err.
      rewrite IH. unfold json.saveError.
      destruct saved as [e|]; [split; intros [H _]; discriminate H|].
      destruct (value_error f v); cbn [is_some negb andb];
        split; intros [H1 H2]; try discriminate; auto.
    + rewrite IH. cbn [andb]. tauto.
Qed.

Lemma forallb_Permutation {A} (p : A -> bool) (l l' : list A) :
  Permutation l l' -> forallb p l = forallb p l'.
Proof.
  induction 1 as [|a l l' _ IH|a b l|l l' l'' _ IH1 _ IH2]; cbn [forallb].
  - reflexivity.
  - now rewrite IH.
  - destruct (p a), (p b); reflexivity.
  - now rewrite IH1.
Qed.

Lemma naming_Permutation n (ms ms' : list (string * json.value)) :
  Permutation ms ms' -> Permutation (naming n ms) (naming n ms').
Proof.
  unfold naming.
  induction 1 as [|m l l' _ IH|a b l|l l' l'' _ IH1 _ IH2]; cbn [List.filter].
  - constructor.
  - destruct (json.equalFold n m.1); [now constructor|assumption].
  - destruct (json.equalFold n a.1), (json.equalFold n b.1);
      try apply Permutation_refl. constructor.
  - etransitivity; eassumption.
Qed.

Lemma last_read_naming {A} (read : json.value -> option A) n ms :
  last_read read n ms = last_read read n (naming n ms).
Proof.
  induction ms as [|[k v] ms IH]; [reflexivity|].
  unfold naming in *. cbn [last_read List.filter fst].
  destruct (json.equalFold n k) eqn:Hk.
  - cbn [last_read]. now rewrite IH, Hk.
  - rewrite IH. now destruct (last_read read n (List.filter _ ms)).
Qed.

(** When at most one member names a field, what is read for it does not
    depend on the order of the members. *)
Lemma last_read_Permutation {A} (read : json.value -> option A) n ms ms' :
  Permutation ms ms' -> (length (naming n ms) <= 1)%nat ->
  last_read read n ms = last_read read n ms'.
Proof.
  intros Hp Hlen. rewrite (last_read_naming read n ms), (last_read_naming read n ms').
  pose proof (naming_Permutation n ms ms' Hp) as Hq.
  destruct (naming n ms) as [|m [|m' l]]; cbn [length] in Hlen; [| |lia].
  - apply Permutation_nil in Hq. now rewrite Hq.
  - apply Permutation_length_1_inv in Hq. now rewrite Hq.
Qed.

Section store_members_order.

Context {T A : Type}.
Variable fs : list (json.field T).
Variable n0 : string.
Variable g : T -> A.
Variable read : json.value -> option A.

Hypothesis Hfold : forall f1 f2, In f1 fs -> In f2 fs ->
  fold_name (json.name f1) = fold_name (json.name f2) -> json.name f1 = json.name f2.
Hypothesis Hself : forall f, In f fs -> json.equalFold (json.name f) (json.name f) = true.
Hypothesis Hn0 : In n0 (map json.name fs).
Hypothesis Hstore : forall f v x, In f fs ->
  g (json.store_value f v x).1
  = if String.eqb (json.name f) n0 then default (g x) (read v) else g x.

(** After the members are stored, [g] is what the last member that names
    [n0] and holds a readable value holds. *)
Lemma store_members_last_read ms x saved :
  g (json.store_members fs ms x saved).1 = default (g x) (last_read read n0 ms).
Proof.
  revert x saved. induction ms as [|[k v] ms IH]; intros x saved;
    cbn [json.store_members last_read]; [reflexivity|].
  destruct (json.find_field fs k) as [f|] eqn:Ef.
  - destruct (json.store_value f v x) as [x1 err] eqn:Hsv.
    rewrite IH.
    destruct (last_read read n0 ms) as [a|]; [reflexivity|].
    rewrite (find_field_names fs n0 g read Hfold Hself Hn0 Hstore k f Ef).
    pose proof (Hstore f v x (proj1 (find_field_Some fs Hself k f Ef))) as Hg.
    rewrite Hsv in Hg. cbn [fst] in Hg. cbn [default].
    rewrite Hg. now destruct (String.eqb (json.name f) n0).
  - rewrite IH.
    destruct (last_read read n0 ms) as [a|]; [reflexivity|].
    apply in_map_iff in Hn0 as (f0 & <- & Hin0).
    now rewrite (find_field_None fs k f0 Ef Hin0).
Qed.

End store_members_order.

Lemma dsn_field_Permutation (g : dsn -> string) n ms ms' :
  In n dsn_emitted_fields ->
  (forall f v x, In f dsn_struct ->
     g (json.store_value f v x).1
     = if String.eqb (json.name f) n then default (g x) (read_string v) else g x) ->
  Permutation ms ms' -> (length (naming n ms) <= 1)%nat ->
  g (json.store_members dsn_struct ms dsn_zero None).1
  = g (json.store_members dsn_struct ms' dsn_zero None).1.
Proof.
  intros Hn Hstore Hp Hlen.
  assert (Hin : In n (map json.name dsn_struct)).
  { unfold dsn_emitted_fields in Hn. in_list Hn; cbn; tauto. }
  rewrite !(store_members_last_read dsn_struct n g read_string
              dsn_names_fold dsn_names_self Hin Hstore).
  now rewrite (last_read_Permutation read_string n ms ms' Hp Hlen).
Qed.

(** X9. The DSN string does not depend on the order in which the payload
    lists its members: two payloads that fail the pass-through check and
    are JSON objects with the same members in different orders, none of
    host, dbname, username, password, search_path being named twice, give
    the same result when the first decodes without error. *)
Theorem X9_dsn_member_order aws1 sess1 name1 (h1 : gmap loc object)
    aws2 sess2 name2 (h2 : gmap loc object)
    (payload1 payload2 : string) (ms1 ms2 : list (string * json.value)) :
  result_of (GetStringSecret aws1 sess1 name1 h1) = (payload1, None) ->
  result_of (GetStringSecret aws2 sess2 name2 h2) = (payload2, None) ->
  ~ (contains payload1 "host=" /\ contains payload1 "dbname=") ->
  ~ (contains payload2 "host=" /\ contains payload2 "dbname=") ->
  json.parse payload1 = Some (json.Object ms1) ->
  json.parse payload2 = Some (json.Object ms2) ->
  Permutation ms1 ms2 ->
  dsn_fields_named_once ms1 ->
  (json.unmarshal payload1 dsn_zero).2 = None ->
  result_of (GetPostgresDSNSecret aws2 sess2 name2 h2)
  = result_of (GetPostgresDSNSecret aws1 sess1 name1 h1).
Proof.
  intros Hf1 Hf2 Hn1 Hn2 Hp1 Hp2 Hperm Honce Herr.
  rewrite !GetPostgresDSNSecret_run, Hf1, Hf2. unfold format_secret.
  rewrite (looks_like_dsn_false _ Hn1), (looks_like_dsn_false _ Hn2).
  unfold json.unmarshal in *. rewrite Hp1 in *. rewrite Hp2.
  unfold json.decode, json.fields in *.
  assert (Herr2 : (json.store_members dsn_struct ms2 dsn_zero None).2 = None).
  { apply store_members_clean. apply store_members_clean in Herr as [_ Hc].
    split; [reflexivity|]. now rewrite <- (forallb_Permutation _ ms1 ms2 Hperm). }
  pose proof (dsn_field_Permutation dsn_Host "host" ms1 ms2 ltac:(cbn; tauto)
                ltac:(store_cases) Hperm (Honce "host" ltac:(cbn; tauto))) as H1.
  pose proof (dsn_field_Permutation dsn_DBName "dbname" ms1 ms2 ltac:(cbn; tauto)
                ltac:(store_cases) Hperm (Honce "dbname" ltac:(cbn; tauto))) as H2.
  pose proof (dsn_field_Permutation dsn_Username "username" ms1 ms2 ltac:(cbn; tauto)
                ltac:(store_cases) Hperm (Honce "username" ltac:(cbn; tauto))) as H3.
  pose proof (dsn_field_Permutation dsn_Password "password" ms1 ms2 ltac:(cbn; tauto)
                ltac:(store_cases) Hperm (Honce "password" ltac:(cbn; tauto))) as H4.
  pose proof (dsn_field_Permutation dsn_SearchPath "search_path" ms1 ms2 ltac:(cbn; tauto)
                ltac:(store_cases) Hperm (Honce "search_path" ltac:(cbn; tauto))) as H5.
  destruct (json.store_members dsn_struct ms1 dsn_zero None) as [d1 e1].
  destruct (json.store_members dsn_struct ms2 dsn_zero None) as [d2 e2].
  cbn [fst snd] in *. subst e1 e2.
  unfold result_of, dsn_string_of. cbn [fst].
  now rewrite H1, H2, H3, H4, H5.
Qed.

Lemma X9_dsn_member_order_witness :
  result_of (GetPostgresDSNSecret (backend_holding reordered_payload) None "db" ∅)
  = result_of (GetPostgresDSNSecret (backend_holding ordered_payload) None "db" ∅).
Proof.
  refine (X9_dsn_member_order
            (backend_holding ordered_payload) None "db" ∅
            (backend_holding reordered_payload) None "db" ∅
            ordered_payload reordered_payload
            [("host", json.Str "db1"); ("dbname", json.Str "app"); ("port", json.Number "5432")]
            [("dbname", json.Str "app"); ("port", json.Number "5432"); ("host", json.Str "db1")]
            eq_refl eq_refl _ _ eq_refl eq_refl _ _ eq_refl).
  - intros [H _]. apply Index_contains in H.
    assert (E : strings.Index ordered_payload "host=" = -1) by reflexivity. lia.
  - intros [H _]. apply Index_contains in H.
    assert (E : strings.Index reordered_payload "host=" = -1) by reflexivity. lia.
  - apply (Permutation_cons_app [_; _] []). apply Permutation_refl.
  - intros n Hn. unfold dsn_emitted_fields in Hn. in_list Hn; vm_compute; lia.
Defined.

(** ** Payloads that are JSON but not what the decoders expect *)

(** X10. A fetched payload that is valid JSON but not an object stores
    nothing.  When it is null, the credential decoders return the record at
    its zero value with a nil error and GetPostgresDSNSecret returns the
    empty string with a nil error.  When it is an array, a string, a number
    or a boolean, the credential decoders return the zero record with the
    type error wrapped, and GetPostgresDSNSecret (the pass-through check
    failing) returns the payload with the bare type error. *)
Theorem X10_non_object_json aws sess secretName (h : gmap loc object)
    (payload : string) (v : json.value) :
  result_of (GetStringSecret aws sess secretName h) = (payload, None) ->
  json.parse payload = Some v ->
  is_object v = false ->
  returned (GetCredentialSecret aws sess secretName h)
  = (Some (ObjCredential Credential_zero),
     errors.Wrapf (non_object_error v) "Couldn't build credential. Failed to decode JSON.")
  /\ returned (GetAPICredentialSecret aws sess secretName h)
     = (Some (ObjAPICredential APICredential_zero),
        errors.Wrapf (non_object_error v) "Couldn't build credential. Failed to decode JSON.")
  /\ (~ (contains payload "host=" /\ contains payload "dbname=") ->
      result_of (GetPostgresDSNSecret aws sess secretName h)
      = match non_object_error v with
        | None => (EmptyString, None)
        | Some e => (payload, Some e)
        end).
Proof.
  intros Hf Hp Hv. unfold returned.
  rewrite GetCredentialSecret_run, GetAPICredentialSecret_run, GetPostgresDSNSecret_run, Hf.
  unfold json.unmarshal, format_secret. rewrite Hp.
  unfold result_of, heap_of. cbn [fst snd]. rewrite !lookup_insert_eq.
  split; [|split].
  - destruct v; try discriminate Hv; reflexivity.
  - destruct v; try discriminate Hv; reflexivity.
  - intros Hn. rewrite (looks_like_dsn_false payload Hn).
    unfold json.unmarshal. rewrite Hp.
    destruct v; try discriminate Hv; reflexivity.
Qed.

Lemma X10_non_object_json_witness :
  returned (GetCredentialSecret (backend_holding "[1,2]") None "s" ∅)
  = (Some (ObjCredential Credential_zero),
     Some (WithMessage (UnmarshalTypeError "array" EmptyString)
             "Couldn't build credential. Failed to decode JSON."))
  /\ result_of (GetPostgresDSNSecret (backend_holding "null") None "s" ∅)
     = (EmptyString, None).
Proof.
  split.
  - exact (proj1 (X10_non_object_json (backend_holding "[1,2]") None "s" ∅ "[1,2]"
                    (json.Array [json.Number "1"; json.Number "2"])
                    eq_refl eq_refl eq_refl)).
  - refine (proj2 (proj2 (X10_non_object_json (backend_holding "null") None "s" ∅ "null"
                            json.Null eq_refl eq_refl eq_refl)) _).
    intros [H _]. apply Index_contains in H.
    assert (E : strings.Index "null" "host=" = -1) by reflexivity. lia.
Defined.

Lemma store_members_error_kind {T} (fs : list (json.field T)) ms (x : T) saved e :
  (json.store_members fs ms x saved).2 = Some e ->
  saved = Some e \/ exists val fld, e = UnmarshalTypeError val fld.
Proof.
  revert x saved. induction ms as [|[k v] ms IH]; intros x saved;
    cbn [json.store_members].
  - cbn [snd]. auto.
  - destruct (json.find_field fs k) as [f|]; [|apply IH].
    pose proof (store_value_error f v x) as Hv.
    destruct (json.store_value f v x) as [x1 err]. cbn [snd] in Hv. subst err.
    intros H. apply IH in H as [H|H]; [|now right].
    unfold json.saveError in H. destruct saved as [e0|]; [now left|].
    right. unfold value_error in H.
    destruct v, (json.store f); try discriminate H;
      try (injection H as <-; eauto).
    destruct (strconv.ParseInt lit); [discriminate H|]. injection H as <-. eauto.
Qed.

(** X11. Whenever json.Unmarshal fails on the fetched string, for a syntax
    error or for a member of the wrong type, GetPostgresDSNSecret returns
    the fetched string itself together with the error of json.Unmarshal as
    it is, not wrapped: a syntax error or a type error. *)
Theorem X11_dsn_decode_error aws sess secretName (h : gmap loc object)
    (payload : string) (e : error) :
  result_of (GetStringSecret aws sess secretName h) = (payload, None) ->
  ~ (contains payload "host=" /\ contains payload "dbname=") ->
  (json.unmarshal payload dsn_zero).2 = Some e ->
  result_of (GetPostgresDSNSecret aws sess secretName h) = (payload, Some e)
  /\ (e = SyntaxError \/ exists val fld, e = UnmarshalTypeError val fld).
Proof.
  intros Hf Hn He. split.
  - rewrite GetPostgresDSNSecret_run, Hf. unfold format_secret.
    rewrite (looks_like_dsn_false payload Hn).
    destruct (json.unmarshal payload dsn_zero) as [d err]. cbn [snd] in He. subst err.
    reflexivity.
  - revert He. unfold json.unmarshal.
    destruct (json.parse payload) as [v|]; [|intros [= <-]; now left].
    right. unfold json.decode in He.
    destruct v; cbn [snd] in He; try (injection He as <-; eauto); try discriminate He.
    apply store_members_error_kind in He as [He|He]; [discriminate He|exact He].
Qed.

Lemma X11_dsn_decode_error_witness :
  result_of (GetPostgresDSNSecret (backend_holding port_as_string) None "db" ∅)
  = (port_as_string, Some (UnmarshalTypeError "string" "port")).
Proof.
  refine (proj1 (X11_dsn_decode_error (backend_holding port_as_string) None "db" ∅
                   port_as_string (UnmarshalTypeError "string" "port") eq_refl _ eq_refl)).
  intros [H _]. apply Index_contains in H.
  assert (E : strings.Index port_as_string "host=" = -1) by reflexivity. lia.
Defined.
